(** * Clamor gateway connector: the session engine of
      [clamor/gateway/connector.py], class [DiscordWebsocketClient].

    The Python object is a record of fields; every coroutine of the class is
    a computation in a small state-and-exception monad over that record and
    over a trace of the effects it has on the outside world (connections
    opened, texts sent, task groups, spawned tasks, emitted events).

    Conventions of the embedding.
    - Python [int] is [Z]; [bytes] is [list byte]; [str] is [string], each
      character standing for the code point of the same number (below 256).
    - A decoded value is a [json]: what a codec can hand back.  Floats are
      left out.  A [dict] keeps its insertion order, as Python's does.
    - [await] is sequential composition: the body of a coroutine is followed
      in program order.  Spawning a task records the spawn; the spawned
      coroutine is a computation of its own.  Delivery of a cancellation to
      a task that is running is not part of the model.
    - [logger] calls have no effect on the client and are left out. *)

From Stdlib Require Import ZArith List String Ascii Bool Lia DecimalString.
From Stdlib Require Import Strings.Byte.
Import ListNotations.
Set Warnings "-register-all".
Local Open Scope Z_scope.
Local Open Scope string_scope.

(* ===================================================================== *)
(** ** Python values *)
(* ===================================================================== *)

Inductive json : Type :=
| JNull
| JBool (b : bool)
| JInt (n : Z)
| JStr (s : string)
| JList (l : list json)
| JDict (d : list (string * json)).

(** Truth value of an object, as [if x:] tests it. *)
Definition truthy (v : json) : bool :=
  match v with
  | JNull => false
  | JBool b => b
  | JInt n => negb (Z.eqb n 0)
  | JStr s => negb (String.eqb s EmptyString)
  | JList l => match l with [] => false | _ => true end
  | JDict d => match d with [] => false | _ => true end
  end.

(** Truth value of an optional integer keyword argument ([None] or an
    [int]). *)
Definition truthy_opt (o : option Z) : bool :=
  match o with
  | None => false
  | Some n => negb (Z.eqb n 0)
  end.

Definition opt_json (o : option Z) : json :=
  match o with
  | None => JNull
  | Some n => JInt n
  end.

Fixpoint lookup (k : string) (d : list (string * json)) : option json :=
  match d with
  | [] => None
  | (k', v) :: d' => if String.eqb k k' then Some v else lookup k d'
  end.

(** [d[k] = v] on a dict: the key keeps its place when it is there already
    and goes to the end otherwise. *)
Fixpoint dict_set (k : string) (v : json) (d : list (string * json))
  : list (string * json) :=
  match d with
  | [] => [(k, v)]
  | (k', v') :: d' =>
      if String.eqb k k' then (k', v) :: d' else (k', v') :: dict_set k v d'
  end.

(** [x == 0]: only integers and booleans can equal zero here. *)
Definition eq_zero (v : json) : bool :=
  match v with
  | JInt n => Z.eqb n 0
  | JBool b => negb b
  | _ => false
  end.

(* ===================================================================== *)
(** ** [json.dumps] with its default settings *)
(* ===================================================================== *)

Definition quote : ascii := ascii_of_nat 34.
Definition backslash : ascii := ascii_of_nat 92.

Definition str1 (c : ascii) : string := String c EmptyString.

Definition hex_digit (n : nat) : ascii :=
  match n with
  | 0%nat => "0" | 1%nat => "1" | 2%nat => "2" | 3%nat => "3"
  | 4%nat => "4" | 5%nat => "5" | 6%nat => "6" | 7%nat => "7"
  | 8%nat => "8" | 9%nat => "9" | 10%nat => "a" | 11%nat => "b"
  | 12%nat => "c" | 13%nat => "d" | 14%nat => "e" | _ => "f"
  end%char.

(** One character of a string literal ([ensure_ascii=True]): the seven
    short escapes, the printable ASCII range as it is, [\u00xx] for the
    rest. *)
Definition escape_char (c : ascii) : string :=
  let n := nat_of_ascii c in
  if Nat.eqb n 34 then String backslash (str1 quote)
  else if Nat.eqb n 92 then String backslash (str1 backslash)
  else if Nat.eqb n 8 then String backslash "b"
  else if Nat.eqb n 12 then String backslash "f"
  else if Nat.eqb n 10 then String backslash "n"
  else if Nat.eqb n 13 then String backslash "r"
  else if Nat.eqb n 9 then String backslash "t"
  else if andb (Nat.leb 32 n) (Nat.leb n 126) then str1 c
  else String backslash
         ("u00" ++ String (hex_digit (Nat.div n 16))
                     (str1 (hex_digit (Nat.modulo n 16)))).

Fixpoint escape (s : string) : string :=
  match s with
  | EmptyString => EmptyString
  | String c s' => escape_char c ++ escape s'
  end.

Definition dumps_str (s : string) : string :=
  String quote (escape s ++ str1 quote).

Definition dumps_int (n : Z) : string := NilZero.string_of_int (Z.to_int n).

Fixpoint join (sep : string) (l : list string) : string :=
  match l with
  | [] => EmptyString
  | [x] => x
  | x :: l' => x ++ sep ++ join sep l'
  end.

Fixpoint json_dumps (v : json) : string :=
  match v with
  | JNull => "null"
  | JBool true => "true"
  | JBool false => "false"
  | JInt n => dumps_int n
  | JStr s => dumps_str s
  | JList l => "[" ++ join ", " (map json_dumps l) ++ "]"
  | JDict d =>
      "{" ++ join ", "
               (map (fun kv => dumps_str (fst kv) ++ ": " ++ json_dumps (snd kv)) d)
          ++ "}"
  end.

(* ===================================================================== *)
(** ** Collaborators of the connector *)
(* ===================================================================== *)

(** What the transport delivers: a text frame or a binary frame. *)
Inductive frame : Type :=
| Text (s : string)
| Binary (b : list byte).

(** Exceptions a coroutine of the client can end with. *)
Inductive exn : Type :=
| EncodingError (msg : string)
| TypeError
| IndexError
| KeyError (k : string)
| AttributeError
| ZlibError
| UnicodeDecodeError
| OverflowError.

(** Modelled from the spec: the codec interface of
    [clamor/gateway/encoding.py] ([BaseEncoder] and the entries of
    [ENCODERS]), which is not among the sources.  A codec has a wire-format
    name used in the URL, [encode] and [decode]; [decode] either hands back
    a value or raises, and [inl msg] is an exception [e] with
    [str(e) = msg]. *)
Record Encoder : Type := mkEncoder {
  TYPE : string;
  decode : frame -> string + json;
  encode : json -> frame
}.

(** Modelled from the spec: the table of [clamor/gateway/opcodes.py], which
    is not among the sources, with the well-known opcodes. *)
Definition opcodes (name : string) : option Z :=
  if String.eqb name "DISPATCH" then Some 0
  else if String.eqb name "HEARTBEAT" then Some 1
  else if String.eqb name "IDENTIFY" then Some 2
  else if String.eqb name "RESUME" then Some 6
  else if String.eqb name "HELLO" then Some 10
  else if String.eqb name "HEARTBEAT_ACK" then Some 11
  else None.

(** The libraries under the client: the codec table, [zlib], [bytes.decode]
    and [platform.system].  A decompression object is a function of all it
    has been fed: [inflate fed data] is what [decompress(data)] returns
    after [fed] went through the same object ([None]: [zlib.error]). *)
Class Runtime : Type := {
  ENCODERS : string -> option Encoder;
  inflate : list byte -> list byte -> option (list byte);
  zlib_decompress : list byte -> Z -> Z -> option (list byte);
  bytes_decode : list byte -> option string;
  platform_system : string
}.

(* ===================================================================== *)
(** ** The client object and the world around it *)
(* ===================================================================== *)

Record client : Type := mkClient {
  url : string;
  encoder : Encoder;
  zlib_compressed : bool;
  buffer : list byte;
  inflator : list byte;          (* all that went through [self.inflator] *)
  _con : option nat;
  _running : bool;
  _tg : option nat;
  shard_id : option Z;
  shard_count : option Z;
  _interval : json;
  _last_sequence : json;
  _has_ack : bool;
  _session_id : json;
  _token : string
}.

Definition set_buffer (b : list byte) (c : client) : client :=
  mkClient (url c) (encoder c) (zlib_compressed c) b (inflator c) (_con c)
    (_running c) (_tg c) (shard_id c) (shard_count c) (_interval c)
    (_last_sequence c) (_has_ack c) (_session_id c) (_token c).

Definition set_inflator (i : list byte) (c : client) : client :=
  mkClient (url c) (encoder c) (zlib_compressed c) (buffer c) i (_con c)
    (_running c) (_tg c) (shard_id c) (shard_count c) (_interval c)
    (_last_sequence c) (_has_ack c) (_session_id c) (_token c).

Definition set_con (n : option nat) (c : client) : client :=
  mkClient (url c) (encoder c) (zlib_compressed c) (buffer c) (inflator c) n
    (_running c) (_tg c) (shard_id c) (shard_count c) (_interval c)
    (_last_sequence c) (_has_ack c) (_session_id c) (_token c).

Definition set_running (b : bool) (c : client) : client :=
  mkClient (url c) (encoder c) (zlib_compressed c) (buffer c) (inflator c)
    (_con c) b (_tg c) (shard_id c) (shard_count c) (_interval c)
    (_last_sequence c) (_has_ack c) (_session_id c) (_token c).

Definition set_tg (g : option nat) (c : client) : client :=
  mkClient (url c) (encoder c) (zlib_compressed c) (buffer c) (inflator c)
    (_con c) (_running c) g (shard_id c) (shard_count c) (_interval c)
    (_last_sequence c) (_has_ack c) (_session_id c) (_token c).

Definition set_interval (v : json) (c : client) : client :=
  mkClient (url c) (encoder c) (zlib_compressed c) (buffer c) (inflator c)
    (_con c) (_running c) (_tg c) (shard_id c) (shard_count c) v
    (_last_sequence c) (_has_ack c) (_session_id c) (_token c).

Definition set_last_sequence (v : json) (c : client) : client :=
  mkClient (url c) (encoder c) (zlib_compressed c) (buffer c) (inflator c)
    (_con c) (_running c) (_tg c) (shard_id c) (shard_count c) (_interval c)
    v (_has_ack c) (_session_id c) (_token c).

Definition set_has_ack (b : bool) (c : client) : client :=
  mkClient (url c) (encoder c) (zlib_compressed c) (buffer c) (inflator c)
    (_con c) (_running c) (_tg c) (shard_id c) (shard_count c) (_interval c)
    (_last_sequence c) b (_session_id c) (_token c).

Definition set_session_id (v : json) (c : client) : client :=
  mkClient (url c) (encoder c) (zlib_compressed c) (buffer c) (inflator c)
    (_con c) (_running c) (_tg c) (shard_id c) (shard_count c) (_interval c)
    (_last_sequence c) (_has_ack c) v (_token c).

Definition set_token (t : string) (c : client) : client :=
  mkClient (url c) (encoder c) (zlib_compressed c) (buffer c) (inflator c)
    (_con c) (_running c) (_tg c) (shard_id c) (shard_count c) (_interval c)
    (_last_sequence c) (_has_ack c) (_session_id c) t.

(** The coroutines a task group is asked to run. *)
Inductive task : Type :=
| T_receive_task
| T_heartbeat_task
| T_identify.

(** What a coroutine does to the outside, in the order it does it. *)
Inductive event : Type :=
| Opened (con : nat) (address : string)   (* anysocks.open_connection *)
| Sent (con : nat) (text : string)        (* con.send *)
| Slept (millis : json)                   (* anyio.sleep(millis / 1000) *)
| Group (tg : nat)                        (* anyio.create_task_group *)
| Spawned (tg : nat) (t : task)           (* tg.spawn *)
| Cancelled (tg : nat)                    (* tg.cancel_scope.cancel *)
| Emitted (key data : json).              (* emitter.emit *)

Record world : Type := mkWorld {
  self : client;
  connections : nat;      (* connections opened so far *)
  groups : nat;           (* task groups created so far *)
  trace : list event
}.

(* ===================================================================== *)
(** ** State and exceptions *)
(* ===================================================================== *)

Inductive result (A : Type) : Type :=
| Ok (a : A)
| Raise (e : exn).
Arguments Ok {A} a.
Arguments Raise {A} e.

Definition M (A : Type) : Type := world -> result A * world.

Definition ret {A} (a : A) : M A := fun w => (Ok a, w).

Definition raise {A} (e : exn) : M A := fun w => (Raise e, w).

Definition bind {A B} (m : M A) (k : A -> M B) : M B :=
  fun w =>
    match m w with
    | (Ok a, w') => k a w'
    | (Raise e, w') => (Raise e, w')
    end.

Declare Scope py_scope.
Delimit Scope py_scope with py.
Notation "x <- m ;; k" := (bind m (fun x => k))
  (at level 61, m at next level, right associativity) : py_scope.
Notation "m ;; k" := (bind m (fun _ => k))
  (at level 61, right associativity) : py_scope.
Local Open Scope py_scope.

Definition get_self : M client := fun w => (Ok (self w), w).

Definition with_self (f : client -> client) (w : world) : world :=
  mkWorld (f (self w)) (connections w) (groups w) (trace w).

Definition with_event (e : event) (w : world) : world :=
  mkWorld (self w) (connections w) (groups w) (trace w ++ [e]).

(** A write to a field of [self]. *)
Definition update (f : client -> client) : M unit :=
  fun w => (Ok tt, with_self f w).

(** An effect on the outside. *)
Definition record (e : event) : M unit :=
  fun w => (Ok tt, with_event e w).

Definition or_raise {A} (e : exn) (o : option A) : M A :=
  match o with
  | Some a => ret a
  | None => raise e
  end.

(** [async with anysocks.open_connection(address) as con]: the next
    connection. *)
Definition open_connection (address : string) : M nat :=
  fun w =>
    let con := connections w in
    (Ok con, mkWorld (self w) (S con) (groups w) (trace w ++ [Opened con address])).

(** [async with anyio.create_task_group() as tg]: the next task group. *)
Definition create_task_group : M nat :=
  fun w =>
    let tg := groups w in
    (Ok tg, mkWorld (self w) (connections w) (S tg) (trace w ++ [Group tg])).

(** [m.get(k)] : [None] for a key that is not there; only a dict has
    [get]. *)
Definition py_get (m : json) (k : string) : M json :=
  match m with
  | JDict d => ret (match lookup k d with Some v => v | None => JNull end)
  | _ => raise AttributeError
  end.

(** [m[k]] with a string key. *)
Definition getitem (m : json) (k : string) : M json :=
  match m with
  | JDict d => or_raise (KeyError k) (lookup k d)
  | _ => raise TypeError
  end.

(* ===================================================================== *)
(** ** [DiscordWebsocketClient] *)
(* ===================================================================== *)

Definition VERSION : Z := 6.
Definition ZLIB_SUFFIX : list byte := [x00; x00; xff; xff].
Definition TEN_MEGABYTES : Z := 10490000.

(** The first quotient that is too large for a float: from there on a
    true division raises [OverflowError]. *)
Definition FLOAT_LIMIT : Z := 2 ^ 1024 - 2 ^ 970.

(** [n / 1000] does not fit a float. *)
Definition overflows (n : Z) : bool := Z.leb (1000 * FLOAT_LIMIT) (Z.abs n).
Arguments overflows n : simpl never.

Fixpoint bytes_eqb (a b : list byte) : bool :=
  match a, b with
  | [], [] => true
  | x :: a', y :: b' => andb (Byte.eqb x y) (bytes_eqb a' b')
  | _, _ => false
  end.

(** [b.endswith(suffix)] *)
Definition endswith (b suffix : list byte) : bool :=
  andb (Nat.leb (List.length suffix) (List.length b))
       (bytes_eqb (skipn (List.length b - List.length suffix) b) suffix).

(** Keyword arguments of the constructor; [None] is a keyword left out. *)
Record kwargs : Type := mkKwargs {
  kw_encoding : option string;
  kw_zlib_compressed : option bool;
  kw_shard_id : option Z;
  kw_shard_count : option Z
}.

Definition no_kwargs : kwargs := mkKwargs None None None None.

Definition set_url (u : string) (c : client) : client :=
  mkClient u (encoder c) (zlib_compressed c) (buffer c) (inflator c) (_con c)
    (_running c) (_tg c) (shard_id c) (shard_count c) (_interval c)
    (_last_sequence c) (_has_ack c) (_session_id c) (_token c).

Definition format_url (c : client) : client :=
  let u := url c ++ "/?v=" ++ dumps_int VERSION ++ "&encoding=" ++ TYPE (encoder c) in
  set_url (if zlib_compressed c then u ++ "&compress=zlib-stream" else u) c.

Section Client.

Context {R : Runtime}.

(** The constructor.  The three listeners it registers on the emitter are
    the table [listener] below. *)
Definition __init__ (address : string) (kw : kwargs) : result client :=
  let name := match kw_encoding kw with Some n => n | None => "json" end in
  match ENCODERS name with
  | None => Raise (KeyError name)
  | Some enc =>
      Ok (format_url
            {| url := address;
               encoder := enc;
               zlib_compressed :=
                 match kw_zlib_compressed kw with Some b => b | None => true end;
               buffer := [];
               inflator := [];
               _con := None;
               _running := false;
               _tg := None;
               shard_id := kw_shard_id kw;
               shard_count := kw_shard_count kw;
               _interval := JInt 0;
               _last_sequence := JNull;
               _has_ack := true;
               _session_id := JInt 0;
               _token := EmptyString |})
  end.

(** Lines 109 to 115 of [_receive]: what the frame becomes before it goes
    to the codec. *)
Definition reassemble (message : frame) : M frame :=
  c <- get_self ;;
  if zlib_compressed c then
    b <- match message with                (* bytearray.extend(message) *)
         | Binary b => ret b
         | Text EmptyString => ret []      (* no item to take *)
         | Text (String _ _) => raise TypeError
         end ;;
    let buf := (buffer c ++ b)%list in
    update (set_buffer buf) ;;
    if endswith buf ZLIB_SUFFIX then
      update (set_inflator (inflator c ++ buf)%list) ;;
      raw <- or_raise ZlibError (inflate (inflator c) buf) ;;
      text <- or_raise UnicodeDecodeError (bytes_decode raw) ;;
      update (set_buffer []) ;;
      ret (Text text)
    else ret message
  else
    match message with
    | Text EmptyString => raise IndexError
    | Text (String ch _) =>
        if Ascii.eqb ch "{" then ret message
        else raise TypeError                       (* zlib.decompress(str) *)
    | Binary b =>
        match b with
        | [] => raise IndexError
        | b0 :: _ =>
            if Byte.eqb b0 x83 then ret message    (* 131 *)
            else
              raw <- or_raise ZlibError (zlib_decompress b 15 TEN_MEGABYTES) ;;
              text <- or_raise UnicodeDecodeError (bytes_decode raw) ;;
              ret (Text text)
        end
    end.

(** [_receive], after [message = await self._con.get_message()]: the frame
    is the argument. *)
Definition _receive (message : frame) : M json :=
  message <- reassemble message ;;
  c <- get_self ;;
  message <-
    match decode (encoder c) message with
    | inr v => ret v
    | inl msg => raise (EncodingError msg)
    end ;;
  s <- py_get message "s" ;;
  (if truthy s then
     v <- getitem message "s" ;;
     update (set_last_sequence v)
   else ret tt) ;;
  ret message.

Definition _send (opcode : Z + string) (data : json) : M unit :=
  opcode <-
    match opcode with
    | inl n => ret n
    | inr name => or_raise (KeyError name) (opcodes name)
    end ;;
  let payload := JDict [("op", JInt opcode); ("d", data)] in
  c <- get_self ;;
  con <- or_raise AttributeError (_con c) ;;
  record (Sent con (json_dumps payload)).

Definition _on_hello (data : json) : M unit :=
  v <- getitem data "heartbeat_interval" ;;
  update (set_interval v) ;;
  c <- get_self ;;
  tg <- or_raise AttributeError (_tg c) ;;
  record (Spawned tg T_heartbeat_task).

Definition _on_heartbeat_ack (data : json) : M unit :=
  update (set_has_ack true).

Definition _on_ready (data : json) : M unit :=
  v <- getitem data "session_id" ;;
  update (set_session_id v).

(** The listeners of [__init__]: [opcodes['HELLO']], [opcodes['HEARTBEAT_ACK']]
    and ["READY"]. *)
Definition listener (key : json) : option (json -> M unit) :=
  match key with
  | JInt n =>
      if Z.eqb n 10 then Some _on_hello
      else if Z.eqb n 11 then Some _on_heartbeat_ack
      else None
  | JStr s => if String.eqb s "READY" then Some _on_ready else None
  | _ => None
  end.

(** Modelled from the spec: [Emitter.emit] of [clamor/utils], which is not
    among the sources: the payload goes to the handler registered for the
    key, if there is one. *)
Definition emit (key data : json) : M unit :=
  record (Emitted key data) ;;
  match listener key with
  | Some handler => handler data
  | None => ret tt
  end.

(** The dict [identify] of [_identify]. *)
Definition identify_payload (c : client) : list (string * json) :=
  let identify :=
    [ ("token", JStr (_token c));
      ("properties", JDict [ ("$os", JStr platform_system);
                             ("$browser", JStr "clamor");
                             ("$device", JStr "clamor") ]);
      ("compress", JBool true);
      ("large_threshold", JInt 250) ] in
  if andb (truthy_opt (shard_id c)) (truthy_opt (shard_count c))
  then dict_set "shard"
         (JList [opt_json (shard_id c); opt_json (shard_count c)]) identify
  else identify.

Definition _identify : M unit :=
  c <- get_self ;;
  _send (inr "IDENTIFY") (JDict (identify_payload c)).

(** The block of [on_open] is left when its tasks are over; the model has
    the spawns. *)
Definition on_open : M unit :=
  tg <- create_task_group ;;
  update (set_tg (Some tg)) ;;
  record (Spawned tg T_receive_task) ;;
  record (Spawned tg T_identify).

Definition on_resume : M unit :=
  tg <- create_task_group ;;
  update (set_tg (Some tg)) ;;
  record (Spawned tg T_heartbeat_task) ;;
  record (Spawned tg T_receive_task).

Definition connect : M unit :=
  c <- get_self ;;
  con <- open_connection (url c) ;;
  update (set_con (Some con)) ;;
  update (set_running true) ;;
  on_open.

(** The cancellation is for every task of the group, the caller too when
    it is one of them; the model has the call and goes on with the
    caller. *)
Definition close : M unit :=
  update (set_running false) ;;
  c <- get_self ;;
  tg <- or_raise AttributeError (_tg c) ;;
  record (Cancelled tg).

(** The dict [payload] of [resume]. *)
Definition resume_payload (c : client) : list (string * json) :=
  [ ("token", JStr (_token c));
    ("session_id", _session_id c);
    ("seq", _last_sequence c) ].

Definition resume : M unit :=
  c <- get_self ;;
  (if _running c then close else ret tt) ;;
  c <- get_self ;;
  con <- open_connection (url c) ;;
  update (set_con (Some con)) ;;
  update (set_running true) ;;
  c <- get_self ;;
  _send (inr "RESUME") (JDict (resume_payload c)) ;;
  on_open.

Definition start (token : string) : M unit :=
  update (set_token token) ;;
  connect.

(** [anyio.sleep(self._interval / 1000)]: the interval has to be a
    number, and the quotient of an integer has to fit a float.  What a
    negative delay does is the backend's affair; the theorems on ticks take
    an interval that is not negative. *)
Definition sleep (millis : json) : M unit :=
  match millis with
  | JInt n =>
      if overflows n then raise OverflowError else record (Slept millis)
  | JBool _ => record (Slept millis)
  | _ => raise TypeError
  end.

Definition _heartbeat : M unit :=
  c <- get_self ;;
  sleep (_interval c) ;;
  c <- get_self ;;
  if _has_ack c then
    _send (inl 1) (_last_sequence c) ;;
    update (set_has_ack false)
  else resume.

(** How a loop [while self._running] stands when the model leaves it. *)
Inductive loop_end : Type :=
| Stopped        (* [_running] was found false *)
| Waiting.       (* suspended: the input given to the model is used up *)

(** [_receive_task] over the frames the transport delivers, in order. *)
Fixpoint _receive_task (frames : list frame) : M loop_end :=
  c <- get_self ;;
  if _running c then
    match frames with
    | [] => ret Waiting
    | f :: frames' =>
        message <- _receive f ;;
        op <- getitem message "op" ;;
        (if eq_zero op then
           t <- getitem message "t" ;;
           d <- getitem message "d" ;;
           emit t d
         else
           op <- getitem message "op" ;;
           d <- getitem message "d" ;;
           emit op d) ;;
        _receive_task frames'
    end
  else ret Stopped.

(** [_heartbeat_task] for a number of turns of its loop. *)
Fixpoint _heartbeat_task (ticks : nat) : M loop_end :=
  c <- get_self ;;
  if _running c then
    match ticks with
    | O => ret Waiting
    | S ticks' => _heartbeat ;; _heartbeat_task ticks'
    end
  else ret Stopped.

End Client.

(* ===================================================================== *)
(** ** Sample collaborators, to run the client on concrete frames *)
(* ===================================================================== *)

Module Sample.

(** [bytes.decode] on ASCII. *)
Fixpoint ascii_text (b : list byte) : option string :=
  match b with
  | [] => Some EmptyString
  | x :: b' =>
      if Nat.ltb (Byte.to_nat x) 128 then
        match ascii_text b' with
        | Some s => Some (String (ascii_of_byte x) s)
        | None => None
        end
      else None
  end.

(** A stand-in for a stream that stores its data as it is: a unit is its
    bytes followed by the four bytes of the suffix. *)
Definition stored (fed data : list byte) : option (list byte) :=
  if endswith data ZLIB_SUFFIX
  then Some (firstn (List.length data - 4) data)
  else None.

Definition event_message (s : Z) : json :=
  JDict [ ("t", JStr "MESSAGE_CREATE"); ("s", JInt s); ("op", JInt 0);
          ("d", JDict [("content", JStr "hi")]) ].

(** The texts the sample codec understands and what they stand for. *)
Definition messages : list (string * json) :=
  [ ("{hello}", JDict [ ("t", JNull); ("s", JNull); ("op", JInt 10);
                        ("d", JDict [("heartbeat_interval", JInt 45000)]) ]);
    ("{ack}", JDict [ ("t", JNull); ("s", JNull); ("op", JInt 11); ("d", JNull) ]);
    ("{ready}", JDict [ ("t", JStr "READY"); ("s", JInt 1); ("op", JInt 0);
                        ("d", JDict [("session_id", JStr "abc")]) ]);
    ("{event 5}", event_message 5);
    ("{event 3}", event_message 3);
    ("{event 0}", event_message 0) ].

Definition table_decode (f : frame) : string + json :=
  let text :=
    match f with
    | Text s => Some s
    | Binary b => ascii_text b
    end in
  match text with
  | None => inl "invalid start byte"
  | Some s =>
      match lookup s messages with
      | Some v => inr v
      | None => inl "Expecting value"
      end
  end.

Definition codec (name : string) : Encoder :=
  {| TYPE := name;
     decode := table_decode;
     encode := fun v => Text (json_dumps v) |}.

Definition runtime : Runtime :=
  {| ENCODERS := fun name =>
       if String.eqb name "json" then Some (codec "json")
       else if String.eqb name "etf" then Some (codec "etf")
       else None;
     inflate := stored;
     zlib_decompress := fun b _ _ => Some b;
     bytes_decode := ascii_text;
     platform_system := "Linux" |}.

Definition gateway : string := "wss://gateway.discord.gg".

(** A client as the constructor leaves it, before anything is opened. *)
Definition fresh (kw : kwargs) : world :=
  match __init__ (R := runtime) gateway kw with
  | Ok c => mkWorld c 0 0 []
  | Raise _ => mkWorld (mkClient gateway (codec "json") true [] [] None false None
                          None None JNull JNull true JNull EmptyString) 0 0 []
  end.

(** The world an action leaves. *)
Definition after {A} (m : M A) (w : world) : world := snd (m w).

Definition bytes_of (s : string) : list byte := list_byte_of_string s.

(** A started client without compression, and one with the default
    streaming compression. *)
Definition plain : world :=
  after (start "tok") (fresh (mkKwargs None (Some false) None None)).

Definition streamed : world := after (start "tok") (fresh no_kwargs).

(** Shard 0 of 4. *)
Definition sharded : world :=
  after (start "tok") (fresh (mkKwargs None None (Some 0) (Some 4))).

(** The default client after the hello of the gateway. *)
Definition armed : world :=
  after (_on_hello (JDict [("heartbeat_interval", JInt 45000)])) streamed.

(** One unit of the stream cut in three frames; the third one brings the
    suffix. *)
Definition chunk1 : list byte := bytes_of "{eve".
Definition chunk2 : list byte := bytes_of "nt ".
Definition chunk3 : list byte := (bytes_of "5}" ++ ZLIB_SUFFIX)%list.

End Sample.

(* ===================================================================== *)
(** ** Notions the statements use *)
(* ===================================================================== *)

(** Unfolds the monadic plumbing. *)
Ltac run :=
  repeat (progress (unfold bind, ret, raise, update, record, get_self,
                      or_raise, with_self, with_event in *; simpl in *)).

(** [m.get(k)] as a value. *)
Definition field (k : string) (m : json) : json :=
  match m with
  | JDict d => match lookup k d with Some v => v | None => JNull end
  | _ => JNull
  end.

(** The spec's name for the flag: a beat is out and its acknowledgement is
    not in. *)
Definition awaitingAck (c : client) : bool := negb (_has_ack c).

(** An interval the sleep of a tick takes: not negative, and with a
    quotient by 1000 that fits a float. *)
Definition sound_interval (n : Z) : Prop := 0 <= n /\ overflows n = false.

(** The world after a frame without the suffix went into the buffer. *)
Definition buffered (b : list byte) (w : world) : world :=
  with_self (set_buffer (buffer (self w) ++ b)) w.

(** Two worlds that differ at most in the reassembly buffer and in what the
    decompression object has seen. *)
Definition same_session (w w' : world) : Prop :=
  trace w' = trace w /\ connections w' = connections w /\
  groups w' = groups w /\
  url (self w') = url (self w) /\
  encoder (self w') = encoder (self w) /\
  zlib_compressed (self w') = zlib_compressed (self w) /\
  _con (self w') = _con (self w) /\
  _running (self w') = _running (self w) /\
  _tg (self w') = _tg (self w) /\
  _interval (self w') = _interval (self w) /\
  _last_sequence (self w') = _last_sequence (self w) /\
  _has_ack (self w') = _has_ack (self w) /\
  _session_id (self w') = _session_id (self w) /\
  _token (self w') = _token (self w).

Definition set_encoder (e : Encoder) (c : client) : client :=
  mkClient (url c) e (zlib_compressed c) (buffer c) (inflator c) (_con c)
    (_running c) (_tg c) (shard_id c) (shard_count c) (_interval c)
    (_last_sequence c) (_has_ack c) (_session_id c) (_token c).

(** The command [_send] puts on the wire for an opcode and its data. *)
Definition command (opcode : Z) (data : json) : string :=
  json_dumps (JDict [("op", JInt opcode); ("d", data)]).

(** What can go on with a client once it is up: the receive loop takes
    some frames, the heartbeat loop makes some turns, a handler or a method
    is called. *)
Inductive activity : Type :=
| Receives (frames : list frame)
| Beats (ticks : nat)
| Hello (data : json)
| Ack (data : json)
| Ready (data : json)
| Identifies
| Resumes
| Closes.

Definition perform {R : Runtime} (a : activity) : M unit :=
  match a with
  | Receives frames => _receive_task frames ;; ret tt
  | Beats ticks => _heartbeat_task ticks ;; ret tt
  | Hello data => _on_hello data
  | Ack data => _on_heartbeat_ack data
  | Ready data => _on_ready data
  | Identifies => _identify
  | Resumes => resume
  | Closes => close
  end.

(** The world after a list of activities, one after the other; an activity
    that ends in an exception leaves the world as it was at that point. *)
Fixpoint perform_all {R : Runtime} (l : list activity) (w : world) : world :=
  match l with
  | [] => w
  | a :: l' => perform_all l' (snd (perform a w))
  end.

(** The trace of [m] only grows. *)
Definition grows {A} (m : M A) : Prop :=
  forall w, exists new, trace (snd (m w)) = (trace w ++ new)%list.

(** The events of [resume] once the old loops, if any, are stopped. *)
Definition reopening (w : world) : list event :=
  [ Opened (connections w) (url (self w));
    Sent (connections w) (command 6 (JDict (resume_payload (self w))));
    Group (groups w);
    Spawned (groups w) T_receive_task;
    Spawned (groups w) T_identify ].

(** What [resume] leaves of the client: the fields it does not write. *)
Definition resumed (w w' : world) : Prop :=
  _con (self w') = Some (connections w) /\
  _running (self w') = true /\
  _tg (self w') = Some (groups w) /\
  _token (self w') = _token (self w) /\
  _session_id (self w') = _session_id (self w) /\
  _last_sequence (self w') = _last_sequence (self w) /\
  _has_ack (self w') = _has_ack (self w) /\
  shard_id (self w') = shard_id (self w) /\
  shard_count (self w') = shard_count (self w).

(** What the constructor fixes and [start] completes: the fields no
    coroutine of a started client writes. *)
Definition config (c : client)
  : string * Encoder * bool * option Z * option Z * string :=
  (url c, encoder c, zlib_compressed c, shard_id c, shard_count c, _token c).

(** [m] leaves the configuration as it finds it. *)
Definition keeps_config {A} (m : M A) : Prop :=
  forall w, config (self (snd (m w))) = config (self w).

(** A codec that also reads a list in one text and a dict without [op] in
    another, to run the client on messages of the wrong shape. *)
Module Odd.

Definition decode_list (f : frame) : string + json :=
  match f with
  | Text s =>
      if String.eqb s "{list}" then inr (JList [JInt 1])
      else if String.eqb s "{no op}" then inr (JDict [("d", JNull)])
      else Sample.table_decode f
  | Binary _ => Sample.table_decode f
  end.

Definition codec : Encoder :=
  {| TYPE := "json";
     decode := decode_list;
     encode := fun v => Text (json_dumps v) |}.

Definition plain : world := with_self (set_encoder codec) Sample.plain.

(** One complete unit of the sample stream. *)
Definition unit5 : list byte :=
  (Sample.bytes_of "{event 5}" ++ ZLIB_SUFFIX)%list.

End Odd.

(* ===================================================================== *)
(** ** Properties of the receive path *)
(* ===================================================================== *)

(** [json.dumps] on values with every kind of escape, as Python prints
    them. *)
Example json_dumps_escapes :
  json_dumps (JStr (String (ascii_of_nat 127) (String (ascii_of_nat 1)
                     (String (ascii_of_nat 10) (String (ascii_of_nat 233)
                     (String quote (str1 backslash)))))))
  = String quote
      ("\u007f\u0001\n\u00e9" ++ String backslash (String quote
         (String backslash (String backslash (str1 quote))))).
Proof. reflexivity. Qed.

Example json_dumps_list :
  json_dumps (JList [JInt 1; JInt (-2); JBool true; JNull; JList []])
  = "[1, -2, true, null, []]".
Proof. reflexivity. Qed.

Section Receive.

Context {R : Runtime}.

Lemma same_session_refl (w : world) : same_session w w.
Proof. repeat split. Qed.

Lemma reassemble_same_session (f : frame) (w : world) :
  same_session w (snd (reassemble f w)).
Proof.
  unfold reassemble; run.
  destruct (zlib_compressed (self w)) eqn:Z.
  - assert (H : forall b,
      same_session w
        (snd ((let buf := (buffer (self w) ++ b)%list in
               update (set_buffer buf) ;;
               if endswith buf ZLIB_SUFFIX then
                 update (set_inflator (inflator (self w) ++ buf)%list) ;;
                 raw <- or_raise ZlibError (inflate (inflator (self w)) buf) ;;
                 text <- or_raise UnicodeDecodeError (bytes_decode raw) ;;
                 update (set_buffer []) ;;
                 ret (Text text)
               else ret f) w))).
    { intros b; run.
      destruct (endswith (buffer (self w) ++ b) ZLIB_SUFFIX); run.
      - destruct (inflate (inflator (self w)) (buffer (self w) ++ b)); run;
          [destruct (bytes_decode l); run |]; repeat split.
      - repeat split. }
    destruct f as [[| ch s] | b]; run;
      [apply (H []) | apply same_session_refl | apply (H b)].
  - destruct f as [s | b]; run.
    + destruct s as [| ch s]; run; [apply same_session_refl |].
      destruct (Ascii.eqb ch "{"); apply same_session_refl.
    + destruct b as [| b0 b]; run; [apply same_session_refl |].
      destruct (Byte.eqb b0 x83); run; [apply same_session_refl |].
      destruct (zlib_decompress (b0 :: b) 15 TEN_MEGABYTES); run;
        [destruct (bytes_decode l); run |]; apply same_session_refl.
Qed.

(** What [_receive] does to the stored sequence: it takes the [s] of the
    decoded message when that is true as a condition, and is left alone
    otherwise, also when the call ends in an exception. *)
Lemma _receive_sequence (f : frame) (w : world) :
  _last_sequence (self (snd (_receive f w))) =
  match fst (_receive f w) with
  | Ok m => if truthy (field "s" m) then field "s" m
            else _last_sequence (self w)
  | Raise _ => _last_sequence (self w)
  end.
Proof.
  pose proof (reassemble_same_session f w) as S.
  assert (Q : _last_sequence (self (snd (reassemble f w))) =
              _last_sequence (self w)) by apply S.
  clear S.
  unfold _receive; run.
  destruct (reassemble f w) as [[m | e] w1]; simpl in *; [| exact Q].
  destruct (decode (encoder (self w1)) m) as [msg | v]; simpl; [exact Q |].
  destruct v; simpl; try exact Q.
  unfold field.
  destruct (lookup "s" d) as [v |] eqn:L; run; rewrite ?L; run; [| exact Q].
  destruct (truthy v) eqn:T; run; rewrite L, T; [reflexivity | exact Q].
Qed.

Lemma _receive_message_is_dict (f : frame) (w : world) (m : json) :
  fst (_receive f w) = Ok m -> exists d, m = JDict d.
Proof.
  unfold _receive; run.
  destruct (reassemble f w) as [[m0 | e] w1]; simpl; [| discriminate].
  destruct (decode (encoder (self w1)) m0) as [msg | v]; simpl; [discriminate |].
  destruct v; simpl; try discriminate.
  destruct (lookup "s" d) as [v |]; simpl.
  - destruct (truthy v); simpl; intros H; inversion H; eauto.
  - intros H; inversion H; eauto.
Qed.

(** C10: when [_receive] ends in an [EncodingError], the stored sequence is
    the one from before the call: the write to [_last_sequence] comes after
    the codec has decoded the frame. *)
Theorem C10_encoding_error_keeps_sequence
        (f : frame) (w w' : world) (msg : string) :
  _receive f w = (Raise (EncodingError msg), w') ->
  _last_sequence (self w') = _last_sequence (self w).
Proof.
  intros H.
  pose proof (_receive_sequence f w) as Q.
  rewrite H in Q; exact Q.
Qed.

(** C1, as the code has it: the message [_receive] returns is a dict; the
    stored sequence becomes its [s] when that is a non-zero integer, stays
    as it was when [s] is missing or [None], and so does not go down as
    long as the [s] that comes in is not below the stored one.  Nothing in
    [_receive] compares the two. *)
Theorem C1_sequence_follows_the_message
        (f : frame) (w w' : world) (m : json) :
  _receive f w = (Ok m, w') ->
  exists d, m = JDict d /\
    (forall n, lookup "s" d = Some (JInt n) -> n <> 0 ->
               _last_sequence (self w') = JInt n) /\
    (lookup "s" d = None \/ lookup "s" d = Some JNull ->
     _last_sequence (self w') = _last_sequence (self w)) /\
    (forall k n, _last_sequence (self w) = JInt k ->
                 lookup "s" d = Some (JInt n) -> k <= n ->
                 exists k', _last_sequence (self w') = JInt k' /\ k <= k').
Proof.
  intros H.
  pose proof (_receive_sequence f w) as Q.
  destruct (_receive_message_is_dict f w m) as [d ->];
    [rewrite H; reflexivity |].
  rewrite H in Q; simpl in Q.
  exists d; split; [reflexivity |].
  repeat split.
  - intros n L N. rewrite L in Q; simpl in Q.
    destruct (Z.eqb_spec n 0); [contradiction | exact Q].
  - intros [L | L]; rewrite L in Q; exact Q.
  - intros k n K L Le. rewrite L in Q; simpl in Q.
    destruct (Z.eqb_spec n 0); simpl in Q.
    + exists k; split; [congruence | lia].
    + exists n; split; [exact Q | exact Le].
Qed.

(** A frame the codec rejects: [_receive] raises [EncodingError] with the
    codec's text, and the loop, which has no handler, ends with it. *)
Lemma rejected_frame
      (f m : frame) (frames : list frame) (w w1 : world) (msg : string) :
  _running (self w) = true ->
  reassemble f w = (Ok m, w1) ->
  decode (encoder (self w)) m = inl msg ->
  _receive f w = (Raise (EncodingError msg), w1) /\
  _receive_task (f :: frames) w = (Raise (EncodingError msg), w1).
Proof.
  intros Run Re De.
  pose proof (reassemble_same_session f w) as S.
  rewrite Re in S; simpl in S.
  assert (E : encoder (self w1) = encoder (self w)) by apply S.
  assert (Rc : _receive f w = (Raise (EncodingError msg), w1)).
  { unfold _receive; run. rewrite Re; simpl. rewrite E, De. reflexivity. }
  split; [exact Rc |].
  simpl; run. rewrite Run, Rc. reflexivity.
Qed.

(** C3, as the code has it: when the codec rejects what a frame has become,
    [_receive] raises [EncodingError] with the text of the codec's error,
    and [_receive_task], which has no handler, ends with that error: the
    frames behind it are not looked at. *)
Theorem C3_decode_failure_ends_the_loop
        (f m : frame) (frames : list frame) (w w1 : world) (msg : string) :
  _running (self w) = true ->
  reassemble f w = (Ok m, w1) ->
  decode (encoder (self w)) m = inl msg ->
  _receive f w = (Raise (EncodingError msg), w1) /\
  _receive_task (f :: frames) w = (Raise (EncodingError msg), w1).
Proof. apply rejected_frame. Qed.

(** C2, at a frame that leaves the buffer without the suffix: the frame
    stays in the buffer and is handed to the codec all the same.  When the
    codec rejects it the receive loop ends with [EncodingError], whatever
    frames follow; when the codec reads a dict in it, that is the message
    returned. *)
Theorem C2_partial_frame_goes_to_the_codec
        (b : list byte) (frames : list frame) (w : world) :
  zlib_compressed (self w) = true ->
  _running (self w) = true ->
  endswith (buffer (self w) ++ b) ZLIB_SUFFIX = false ->
  reassemble (Binary b) w = (Ok (Binary b), buffered b w) /\
  (forall msg, decode (encoder (self w)) (Binary b) = inl msg ->
     _receive_task (Binary b :: frames) w =
       (Raise (EncodingError msg), buffered b w)) /\
  (forall d, decode (encoder (self w)) (Binary b) = inr (JDict d) ->
     fst (_receive (Binary b) w) = Ok (JDict d)).
Proof.
  intros Zc Run End.
  assert (Re : reassemble (Binary b) w = (Ok (Binary b), buffered b w)).
  { unfold reassemble, buffered; run. rewrite Zc, End. reflexivity. }
  split; [exact Re |]. split.
  - intros msg De.
    apply (rejected_frame (Binary b) (Binary b)); assumption.
  - intros d De.
    unfold _receive; run. rewrite Re; simpl. rewrite De; simpl.
    destruct (lookup "s" d) as [v |] eqn:L; run; rewrite ?L; run;
      [destruct (truthy v); run; rewrite ?L |]; reflexivity.
Qed.

End Receive.

(* ===================================================================== *)
(** ** The trace only grows *)
(* ===================================================================== *)

Create HintDb grows.

Lemma grows_ret {A} (a : A) : grows (ret a).
Proof. intros w; exists []; simpl; now rewrite app_nil_r. Qed.

Lemma grows_raise {A} (e : exn) : grows (raise (A := A) e).
Proof. intros w; exists []; simpl; now rewrite app_nil_r. Qed.

Lemma grows_get_self : grows get_self.
Proof. intros w; exists []; simpl; now rewrite app_nil_r. Qed.

Lemma grows_update (f : client -> client) : grows (update f).
Proof. intros w; exists []; simpl; now rewrite app_nil_r. Qed.

Lemma grows_record (e : event) : grows (record e).
Proof. intros w; exists [e]; reflexivity. Qed.

Lemma grows_or_raise {A} (e : exn) (o : option A) : grows (or_raise e o).
Proof. destruct o; [apply grows_ret | apply grows_raise]. Qed.

Lemma grows_open_connection (address : string) : grows (open_connection address).
Proof. intros w; eexists; reflexivity. Qed.

Lemma grows_create_task_group : grows create_task_group.
Proof. intros w; eexists; reflexivity. Qed.

Lemma grows_bind {A B} (m : M A) (k : A -> M B) :
  grows m -> (forall a, grows (k a)) -> grows (bind m k).
Proof.
  intros Hm Hk w. unfold bind.
  destruct (Hm w) as [n1 E1].
  destruct (m w) as [[a | e] w1]; simpl in *.
  - destruct (Hk a w1) as [n2 E2].
    exists (n1 ++ n2)%list. rewrite E2, E1. now rewrite app_assoc.
  - exists n1; exact E1.
Qed.

Lemma grows_if {A} (b : bool) (m1 m2 : M A) :
  grows m1 -> grows m2 -> grows (if b then m1 else m2).
Proof. destruct b; auto. Qed.

#[local] Hint Resolve grows_ret grows_raise grows_get_self grows_update
  grows_record grows_or_raise grows_open_connection grows_create_task_group
  grows_if : grows.

(** Goes through a computation bind by bind. *)
Ltac grow :=
  repeat (first
    [ solve [auto with grows]
    | apply grows_bind; [| intros ?]
    | apply grows_if
    | match goal with
      | |- grows (match ?x with _ => _ end) => destruct x
      end ]).

Section Grows.

Context {R : Runtime}.

Lemma grows_py_get (m : json) (k : string) : grows (py_get m k).
Proof. destruct m; simpl; auto with grows. Qed.

Lemma grows_getitem (m : json) (k : string) : grows (getitem m k).
Proof. destruct m; simpl; auto with grows. Qed.

Hint Resolve grows_py_get grows_getitem : grows.

Lemma grows_reassemble (f : frame) : grows (reassemble f).
Proof.
  intros w. exists []. rewrite app_nil_r.
  apply (reassemble_same_session f w).
Qed.

Hint Resolve grows_reassemble : grows.

Lemma grows__receive (f : frame) : grows (_receive f).
Proof. unfold _receive. grow. Qed.

Lemma grows__send (opcode : Z + string) (data : json) :
  grows (_send opcode data).
Proof. unfold _send. grow. Qed.

Hint Resolve grows__receive grows__send : grows.

Lemma grows__on_hello (data : json) : grows (_on_hello data).
Proof. unfold _on_hello. grow. Qed.

Lemma grows__on_heartbeat_ack (data : json) : grows (_on_heartbeat_ack data).
Proof. unfold _on_heartbeat_ack. grow. Qed.

Lemma grows__on_ready (data : json) : grows (_on_ready data).
Proof. unfold _on_ready. grow. Qed.

Hint Resolve grows__on_hello grows__on_heartbeat_ack grows__on_ready : grows.

Lemma grows_emit (key data : json) : grows (emit key data).
Proof.
  unfold emit. apply grows_bind; [auto with grows | intros _].
  unfold listener.
  destruct key; auto with grows.
  - destruct (Z.eqb n 10); [auto with grows |].
    destruct (Z.eqb n 11); auto with grows.
  - destruct (String.eqb s "READY"); auto with grows.
Qed.

Lemma grows__identify : grows _identify.
Proof. unfold _identify. grow. Qed.

Lemma grows_on_open : grows on_open.
Proof. unfold on_open. grow. Qed.

Lemma grows_close : grows close.
Proof. unfold close. grow. Qed.

Hint Resolve grows_emit grows__identify grows_on_open grows_close : grows.

Lemma grows_resume : grows resume.
Proof. unfold resume. grow. Qed.

Hint Resolve grows_resume : grows.

Lemma grows_sleep (millis : json) : grows (sleep millis).
Proof. destruct millis; simpl; auto with grows. Qed.

Hint Resolve grows_sleep : grows.

Lemma grows__heartbeat : grows _heartbeat.
Proof. unfold _heartbeat. grow. Qed.

Hint Resolve grows__heartbeat : grows.

Lemma grows__receive_task (frames : list frame) : grows (_receive_task frames).
Proof.
  induction frames as [| f frames IH]; cbn [_receive_task]; grow.
Qed.

Lemma grows__heartbeat_task (ticks : nat) : grows (_heartbeat_task ticks).
Proof.
  induction ticks as [| ticks IH]; cbn [_heartbeat_task]; grow.
Qed.

Hint Resolve grows__receive_task grows__heartbeat_task : grows.

Lemma grows_perform (a : activity) : grows (perform a).
Proof. destruct a; cbn [perform]; grow. Qed.

(** Whatever was in the trace is still there after any activities. *)
Lemma perform_all_keeps (l : list activity) (w : world) (e : event) :
  In e (trace w) -> In e (trace (perform_all l w)).
Proof.
  revert w; induction l as [| a l IH]; intros w H; simpl; [exact H |].
  apply IH.
  destruct (grows_perform a w) as [new E]. rewrite E.
  apply in_or_app; left; exact H.
Qed.

End Grows.

(* ===================================================================== *)
(** ** Commands, heartbeat and resume *)
(* ===================================================================== *)

Section Commands.

Context {R : Runtime}.

Lemma _send_number (w : world) (n : Z) (data : json) (con : nat) :
  _con (self w) = Some con ->
  _send (inl n) data w = (Ok tt, with_event (Sent con (command n data)) w).
Proof. intros C. unfold _send; run. rewrite C. reflexivity. Qed.

Lemma _send_name (w : world) (name : string) (n : Z) (data : json) (con : nat) :
  _con (self w) = Some con ->
  opcodes name = Some n ->
  _send (inr name) data w = (Ok tt, with_event (Sent con (command n data)) w).
Proof. intros C O. unfold _send; run. rewrite O; run. rewrite C. reflexivity. Qed.

Lemma resume_running (w : world) (tg : nat) :
  _running (self w) = true ->
  _tg (self w) = Some tg ->
  fst (resume w) = Ok tt /\
  trace (snd (resume w)) = (trace w ++ Cancelled tg :: reopening w)%list /\
  resumed w (snd (resume w)).
Proof.
  intros Run Tg.
  unfold resume, close, on_open, _send, open_connection, create_task_group,
    reopening, resumed, command; run.
  rewrite Run; run. rewrite Tg; run.
  repeat split.
  repeat (rewrite <- app_assoc; simpl). reflexivity.
Qed.

Lemma resume_stopped (w : world) :
  _running (self w) = false ->
  fst (resume w) = Ok tt /\
  trace (snd (resume w)) = (trace w ++ reopening w)%list /\
  resumed w (snd (resume w)).
Proof.
  intros Run.
  unfold resume, close, on_open, _send, open_connection, create_task_group,
    reopening, resumed, command; run.
  rewrite Run; run.
  repeat split.
  repeat (rewrite <- app_assoc; simpl). reflexivity.
Qed.

Lemma resume_without_group (w : world) :
  _running (self w) = true ->
  _tg (self w) = None ->
  fst (resume w) = Raise AttributeError /\ trace (snd (resume w)) = trace w.
Proof.
  intros Run Tg. unfold resume, close; run.
  rewrite Run; run. rewrite Tg; run. split; reflexivity.
Qed.

(** A heartbeat command differs from a resume command in its opcode, and
    the other events are not commands. *)
Lemma reopening_has_no_heartbeat (w : world) (con : nat) (v : json) :
  ~ In (Sent con (command 1 v)) (reopening w).
Proof.
  unfold reopening; cbn [In].
  intros [H | [H | [H | [H | [H | []]]]]]; discriminate H.
Qed.

(** The events of [resume], in every case, hold no heartbeat command. *)
Lemma resume_sends_no_heartbeat (w : world) :
  exists new, trace (snd (resume w)) = (trace w ++ new)%list /\
              forall con v, ~ In (Sent con (command 1 v)) new.
Proof.
  destruct (_running (self w)) eqn:Run.
  - destruct (_tg (self w)) as [tg |] eqn:Tg.
    + destruct (resume_running w tg Run Tg) as (_ & T & _).
      exists (Cancelled tg :: reopening w); split; [exact T |].
      intros con v [H | H]; [discriminate |].
      exact (reopening_has_no_heartbeat w con v H).
    + destruct (resume_without_group w Run Tg) as (_ & T).
      exists []; split; [rewrite app_nil_r; exact T | intros con v []].
  - destruct (resume_stopped w Run) as (_ & T & _).
    exists (reopening w); split; [exact T |].
    apply reopening_has_no_heartbeat.
Qed.

End Commands.

(** The sleep at the edge of the floats: the last interval whose quotient
    by 1000 is a float, the first one that raises, and a tick with an
    interval of 10^400, which ends in [OverflowError] with nothing sent. *)
Example overflows_edge :
  overflows (1000 * FLOAT_LIMIT - 1) = false /\
  overflows (1000 * FLOAT_LIMIT) = true /\
  overflows (- (1000 * FLOAT_LIMIT)) = true /\
  overflows 45000 = false.
Proof. vm_compute. repeat split. Qed.

Example _heartbeat_overflow :
  let w := with_self (set_interval (JInt (10 ^ 400))) Sample.armed in
  _heartbeat w = (Raise OverflowError, w).
Proof. vm_compute. reflexivity. Qed.

Section Session.

Context {R : Runtime}.

(** A tick with the last beat acknowledged: one heartbeat command with the
    stored sequence, and the flag goes down. *)
Lemma _heartbeat_acknowledged (w : world) (con : nat) (n : Z) :
  _interval (self w) = JInt n ->
  overflows n = false ->
  _con (self w) = Some con ->
  _has_ack (self w) = true ->
  exists w', _heartbeat w = (Ok tt, w') /\
    trace w' = (trace w ++ [ Slept (JInt n);
                             Sent con (command 1 (_last_sequence (self w))) ])%list /\
    _has_ack (self w') = false.
Proof.
  intros I O C A.
  unfold _heartbeat, sleep, _send; run.
  rewrite I; run. rewrite O; run. rewrite A; run. rewrite C; run.
  eexists; split; [reflexivity |]. simpl. split; [| reflexivity].
  rewrite <- app_assoc. reflexivity.
Qed.

(** A tick with the last beat not acknowledged is [resume], after the
    sleep. *)
Lemma _heartbeat_unacknowledged (w : world) (n : Z) :
  _interval (self w) = JInt n ->
  overflows n = false ->
  _has_ack (self w) = false ->
  _heartbeat w = resume (with_event (Slept (JInt n)) w).
Proof.
  intros I O A.
  unfold _heartbeat at 1, sleep; run.
  rewrite I; run. rewrite O; run. rewrite A. reflexivity.
Qed.

(** C4: at a tick, that is once the sleep has taken the interval, with
    the last beat acknowledged, exactly one heartbeat command with the
    stored sequence is sent and the client awaits the acknowledgement; with
    the last beat not acknowledged, the tick is the resume procedure and no
    heartbeat command goes out; a heartbeat acknowledgement, by its handler
    or through the emitter under opcode 11, ends the wait, so that the tick
    after it sends a heartbeat. *)
Theorem C4_heartbeat_tick (w : world) (con : nat) (n : Z) :
  _interval (self w) = JInt n ->
  sound_interval n ->
  _con (self w) = Some con ->
  (awaitingAck (self w) = false ->
     exists w', _heartbeat w = (Ok tt, w') /\
       trace w' = (trace w ++ [ Slept (JInt n);
                                Sent con (command 1 (_last_sequence (self w))) ])%list /\
       awaitingAck (self w') = true) /\
  (awaitingAck (self w) = true ->
     _heartbeat w = resume (with_event (Slept (JInt n)) w) /\
     exists new,
       trace (snd (_heartbeat w)) = (trace w ++ Slept (JInt n) :: new)%list /\
       forall c v, ~ In (Sent c (command 1 v)) new) /\
  (forall data,
     let w1 := snd (_on_heartbeat_ack data w) in
     awaitingAck (self w1) = false /\
     awaitingAck (self (snd (emit (JInt 11) data w))) = false /\
     exists w', _heartbeat w1 = (Ok tt, w') /\
       trace w' = (trace w ++ [ Slept (JInt n);
                                Sent con (command 1 (_last_sequence (self w))) ])%list /\
       awaitingAck (self w') = true).
Proof.
  intros I [_ O] C. unfold awaitingAck. repeat split.
  - intros A. apply negb_false_iff in A.
    destruct (_heartbeat_acknowledged w con n I O C A) as (w' & H & T & A').
    exists w'. rewrite A'. auto.
  - apply _heartbeat_unacknowledged; [exact I | exact O |].
    apply negb_true_iff; assumption.
  - rewrite (_heartbeat_unacknowledged w n I O)
      by (apply negb_true_iff; assumption).
    destruct (resume_sends_no_heartbeat (with_event (Slept (JInt n)) w))
      as (new & T & N).
    exists new; split; [| exact N].
    rewrite T. simpl. rewrite <- app_assoc. reflexivity.
  - destruct (_heartbeat_acknowledged (snd (_on_heartbeat_ack data w)) con n)
      as (w' & H & T & A'); try assumption; try reflexivity.
    exists w'. rewrite A'. auto.
Qed.

(** C5, at shard 0: the test on [shard_id] is a truth test, and 0 fails it;
    the identify payload then has the four fixed fields and no [shard]. *)
Theorem C5_shard_zero_is_left_out (w : world) (con : nat) (count : Z) :
  shard_id (self w) = Some 0 ->
  shard_count (self w) = Some count ->
  _con (self w) = Some con ->
  lookup "shard" (identify_payload (self w)) = None /\
  _identify w =
    (Ok tt,
     with_event
       (Sent con
          (command 2
             (JDict [ ("token", JStr (_token (self w)));
                      ("properties", JDict [ ("$os", JStr platform_system);
                                             ("$browser", JStr "clamor");
                                             ("$device", JStr "clamor") ]);
                      ("compress", JBool true);
                      ("large_threshold", JInt 250) ]))) w).
Proof.
  intros Id Count C.
  assert (P : identify_payload (self w) =
              [ ("token", JStr (_token (self w)));
                ("properties", JDict [ ("$os", JStr platform_system);
                                       ("$browser", JStr "clamor");
                                       ("$device", JStr "clamor") ]);
                ("compress", JBool true);
                ("large_threshold", JInt 250) ]).
  { unfold identify_payload. rewrite Id. reflexivity. }
  split.
  - rewrite P. reflexivity.
  - unfold _identify; run. rewrite P.
    apply (_send_name w "IDENTIFY" 2 _ con C). reflexivity.
Qed.

(** With a shard index and a shard count that are not zero, the pair is in
    the payload. *)
Lemma identify_payload_with_shard (c : client) (i n : Z) :
  shard_id c = Some i -> shard_count c = Some n -> i <> 0 -> n <> 0 ->
  lookup "shard" (identify_payload c) = Some (JList [JInt i; JInt n]).
Proof.
  intros Id Count Hi Hn. unfold identify_payload.
  rewrite Id, Count; simpl.
  destruct (Z.eqb_spec i 0); [contradiction |].
  destruct (Z.eqb_spec n 0); [contradiction |].
  reflexivity.
Qed.

(** C6: the resume command carries the token, the session id and the
    sequence the client holds when [resume] is called, these three and no
    more, on the connection [resume] opens; the text is sent, and nothing
    the client does later, whatever it writes to those fields, changes
    it. *)
Theorem C6_resume_payload (w : world) (later : list activity) :
  (_running (self w) = true -> _tg (self w) <> None) ->
  let text :=
    command 6 (JDict [ ("token", JStr (_token (self w)));
                       ("session_id", _session_id (self w));
                       ("seq", _last_sequence (self w)) ]) in
  exists w',
    resume w = (Ok tt, w') /\
    _con (self w') = Some (connections w) /\
    (exists before,
       trace w' = (trace w ++ before ++
                   [ Opened (connections w) (url (self w));
                     Sent (connections w) text;
                     Group (groups w);
                     Spawned (groups w) T_receive_task;
                     Spawned (groups w) T_identify ])%list) /\
    In (Sent (connections w) text) (trace (perform_all later w')).
Proof.
  intros G text.
  assert (H : fst (resume w) = Ok tt /\
              resumed w (snd (resume w)) /\
              exists before,
                trace (snd (resume w)) = (trace w ++ before ++ reopening w)%list).
  { destruct (_running (self w)) eqn:Run.
    - destruct (_tg (self w)) as [tg |] eqn:Tg;
        [| exfalso; apply G; reflexivity].
      destruct (resume_running w tg Run Tg) as (F & T & S).
      repeat split; try apply S; [exact F |].
      exists [Cancelled tg]. exact T.
    - destruct (resume_stopped w Run) as (F & T & S).
      repeat split; try apply S; [exact F |].
      exists []. exact T. }
  destruct H as (F & S & before & T).
  exists (snd (resume w)).
  split; [destruct (resume w); simpl in *; congruence |].
  split; [apply S |].
  split; [exists before; exact T |].
  apply perform_all_keeps. rewrite T.
  apply in_or_app; right. apply in_or_app; right.
  right; left. reflexivity.
Qed.

(** C7, at a client that is running: [resume] stops the loops of the old
    task group, then opens the connection and sends the resume command on
    it, and then calls [on_open]: the tasks it starts are the receive loop
    and [_identify], no heartbeat loop, and [_identify] sends an identify
    command on the new connection. *)
Theorem C7_resume_reopens_with_on_open (w : world) (tg : nat) :
  _running (self w) = true ->
  _tg (self w) = Some tg ->
  exists w',
    resume w = (Ok tt, w') /\
    trace w' =
      (trace w ++
       [ Cancelled tg;
         Opened (connections w) (url (self w));
         Sent (connections w) (command 6 (JDict (resume_payload (self w))));
         Group (groups w);
         Spawned (groups w) T_receive_task;
         Spawned (groups w) T_identify ])%list /\
    _identify w' =
      (Ok tt,
       with_event
         (Sent (connections w) (command 2 (JDict (identify_payload (self w)))))
         w').
Proof.
  intros Run Tg.
  destruct (resume_running w tg Run Tg) as (F & T & S).
  exists (snd (resume w)).
  split; [destruct (resume w); simpl in *; congruence |].
  split; [exact T |].
  destruct S as (C & _ & _ & Tok & _ & _ & _ & Si & Sc).
  unfold _identify; run.
  assert (P : identify_payload (self (snd (resume w))) =
              identify_payload (self w)).
  { unfold identify_payload. rewrite Tok, Si, Sc. reflexivity. }
  rewrite P.
  apply (_send_name _ "IDENTIFY" 2 _ _ C). reflexivity.
Qed.

(** The world the hello handler leaves when the payload has an interval
    and a task group is there. *)
Lemma _on_hello_arms (d : list (string * json)) (v : json) (tg : nat) (w : world) :
  lookup "heartbeat_interval" d = Some v ->
  _tg (self w) = Some tg ->
  _on_hello (JDict d) w =
    (Ok tt, with_event (Spawned tg T_heartbeat_task)
              (with_self (set_interval v) w)).
Proof.
  intros L Tg. unfold _on_hello, getitem; run.
  rewrite L; run. rewrite Tg. reflexivity.
Qed.

(** C8, as the code has it: the constructor sets [_has_ack], so a new
    client is not awaiting an acknowledgement; the hello handler writes the
    interval and leaves the flag as it finds it; the first tick after the
    hello of a client that is not awaiting, once the sleep has taken the
    interval, sends a heartbeat. *)
Theorem C8_flag_is_set_by_the_constructor
        (address : string) (kw : kwargs) (c : client) :
  __init__ address kw = Ok c ->
  awaitingAck c = false /\
  (forall data w,
     awaitingAck (self (snd (_on_hello data w))) = awaitingAck (self w)) /\
  (forall d n con tg w,
     lookup "heartbeat_interval" d = Some (JInt n) ->
     sound_interval n ->
     _con (self w) = Some con ->
     _tg (self w) = Some tg ->
     awaitingAck (self w) = false ->
     exists w',
       _heartbeat (snd (_on_hello (JDict d) w)) = (Ok tt, w') /\
       trace w' =
         (trace w ++ [ Spawned tg T_heartbeat_task; Slept (JInt n);
                       Sent con (command 1 (_last_sequence (self w))) ])%list).
Proof.
  intros H. split; [| split].
  - unfold __init__ in H.
    destruct (ENCODERS _); inversion H. reflexivity.
  - intros data w. unfold _on_hello, getitem; run.
    destruct data; run; try reflexivity.
    destruct (lookup "heartbeat_interval" d); run; [| reflexivity].
    destruct (_tg (self w)); reflexivity.
  - intros d n con tg w L [_ O] C Tg A.
    rewrite (_on_hello_arms d (JInt n) tg w L Tg). cbn [snd].
    apply negb_false_iff in A.
    destruct (_heartbeat_acknowledged
                (with_event (Spawned tg T_heartbeat_task)
                   (with_self (set_interval (JInt n)) w)) con n)
      as (w' & Hb & T & _); try assumption; try reflexivity.
    exists w'. split; [exact Hb |].
    rewrite T. simpl. rewrite <- app_assoc. reflexivity.
Qed.

(** C9: [_send] wraps the opcode and the data in a dict with the keys [op]
    and [d] and sends its [json.dumps] text on the connection, whatever
    codec the client holds; a name is looked up in [opcodes] first.  The
    heartbeat and the identify command are such texts. *)
Theorem C9_commands_are_json_text
        (w : world) (enc : Encoder) (con : nat) (data : json) :
  _con (self w) = Some con ->
  let w' := with_self (set_encoder enc) w in
  (forall n,
     _send (inl n) data w' =
       (Ok tt,
        with_event (Sent con (json_dumps (JDict [("op", JInt n); ("d", data)])))
          w')) /\
  (forall name n, opcodes name = Some n ->
     _send (inr name) data w' =
       (Ok tt,
        with_event (Sent con (json_dumps (JDict [("op", JInt n); ("d", data)])))
          w')) /\
  _identify w' =
    (Ok tt,
     with_event
       (Sent con (json_dumps (JDict [ ("op", JInt 2);
                                      ("d", JDict (identify_payload (self w))) ])))
       w').
Proof.
  intros C w'.
  assert (C' : _con (self w') = Some con) by exact C.
  repeat split.
  - intros n. apply (_send_number w' n data con C').
  - intros name n O. apply (_send_name w' name n data con C' O).
  - change (_identify w') with
      (_send (inr "IDENTIFY") (JDict (identify_payload (self w))) w').
    apply (_send_name w' "IDENTIFY" 2 _ con C'). reflexivity.
Qed.

End Session.

(* ===================================================================== *)
(** ** The configuration is never written *)
(* ===================================================================== *)

Lemma keeps_ret {A} (a : A) : keeps_config (ret a).
Proof. intros w; reflexivity. Qed.

Lemma keeps_raise {A} (e : exn) : keeps_config (raise (A := A) e).
Proof. intros w; reflexivity. Qed.

Lemma keeps_get_self : keeps_config get_self.
Proof. intros w; reflexivity. Qed.

Lemma keeps_record (e : event) : keeps_config (record e).
Proof. intros w; reflexivity. Qed.

Lemma keeps_update (f : client -> client) :
  (forall c, config (f c) = config c) -> keeps_config (update f).
Proof. intros H w; simpl. apply H. Qed.

Lemma keeps_or_raise {A} (e : exn) (o : option A) : keeps_config (or_raise e o).
Proof. destruct o; [apply keeps_ret | apply keeps_raise]. Qed.

Lemma keeps_open_connection (address : string) :
  keeps_config (open_connection address).
Proof. intros w; reflexivity. Qed.

Lemma keeps_create_task_group : keeps_config create_task_group.
Proof. intros w; reflexivity. Qed.

Lemma keeps_bind {A B} (m : M A) (k : A -> M B) :
  keeps_config m -> (forall a, keeps_config (k a)) -> keeps_config (bind m k).
Proof.
  intros Hm Hk w. unfold bind.
  pose proof (Hm w) as E1.
  destruct (m w) as [[a | e] w1]; simpl in *.
  - rewrite (Hk a w1). exact E1.
  - exact E1.
Qed.

Lemma keeps_if {A} (b : bool) (m1 m2 : M A) :
  keeps_config m1 -> keeps_config m2 -> keeps_config (if b then m1 else m2).
Proof. destruct b; auto. Qed.

Create HintDb keeps.

#[local] Hint Resolve keeps_ret keeps_raise keeps_get_self keeps_record
  keeps_or_raise keeps_open_connection keeps_create_task_group : keeps.

(** Goes through a computation bind by bind; a write is checked against
    the fields of the configuration. *)
Ltac keep :=
  repeat (first
    [ solve [auto with keeps]
    | apply keeps_update; intros ?; reflexivity
    | apply keeps_bind; [| intros ?]
    | apply keeps_if
    | match goal with
      | |- keeps_config (match ?x with _ => _ end) => destruct x
      end ]).

Section Config.

Context {R : Runtime}.

Lemma keeps_py_get (m : json) (k : string) : keeps_config (py_get m k).
Proof. destruct m; simpl; auto with keeps. Qed.

Lemma keeps_getitem (m : json) (k : string) : keeps_config (getitem m k).
Proof. destruct m; simpl; auto with keeps. Qed.

Hint Resolve keeps_py_get keeps_getitem : keeps.

Lemma keeps_reassemble (f : frame) : keeps_config (reassemble f).
Proof.
  intros w. destruct (reassemble_same_session f w)
    as (_ & _ & _ & U & E & Z & _ & _ & _ & _ & _ & _ & _ & T).
  unfold config. rewrite U, E, Z, T.
  assert (S : shard_id (self (snd (reassemble f w))) = shard_id (self w) /\
              shard_count (self (snd (reassemble f w))) = shard_count (self w)).
  { unfold reassemble; run.
    destruct (zlib_compressed (self w)).
    - destruct f as [[| ch s] | b]; run; try (split; reflexivity);
        match goal with
        | |- context [endswith ?x ZLIB_SUFFIX] =>
            destruct (endswith x ZLIB_SUFFIX); run;
            [ match goal with
              | |- context [inflate ?i ?y] =>
                  destruct (inflate i y) as [raw |]; run;
                  [destruct (bytes_decode raw); run |]
              end |]
        end; split; reflexivity.
    - destruct f as [[| ch s] | [| b0 b]]; run; try (split; reflexivity).
      + destruct (Ascii.eqb ch "{"); split; reflexivity.
      + destruct (Byte.eqb b0 x83); run; [split; reflexivity |].
        destruct (zlib_decompress (b0 :: b) 15 TEN_MEGABYTES) as [raw |]; run;
          [destruct (bytes_decode raw); run |]; split; reflexivity. }
  destruct S as [S1 S2]. rewrite S1, S2. reflexivity.
Qed.

Hint Resolve keeps_reassemble : keeps.

Lemma keeps__receive (f : frame) : keeps_config (_receive f).
Proof. unfold _receive. keep. Qed.

Lemma keeps__send (opcode : Z + string) (data : json) :
  keeps_config (_send opcode data).
Proof. unfold _send. keep. Qed.

Hint Resolve keeps__receive keeps__send : keeps.

Lemma keeps__on_hello (data : json) : keeps_config (_on_hello data).
Proof. unfold _on_hello. keep. Qed.

Lemma keeps__on_heartbeat_ack (data : json) :
  keeps_config (_on_heartbeat_ack data).
Proof. unfold _on_heartbeat_ack. keep. Qed.

Lemma keeps__on_ready (data : json) : keeps_config (_on_ready data).
Proof. unfold _on_ready. keep. Qed.

Hint Resolve keeps__on_hello keeps__on_heartbeat_ack keeps__on_ready : keeps.

Lemma keeps_emit (key data : json) : keeps_config (emit key data).
Proof.
  unfold emit. apply keeps_bind; [auto with keeps | intros _].
  unfold listener.
  destruct key; auto with keeps.
  - destruct (Z.eqb n 10); [auto with keeps |].
    destruct (Z.eqb n 11); auto with keeps.
  - destruct (String.eqb s "READY"); auto with keeps.
Qed.

Lemma keeps__identify : keeps_config _identify.
Proof. unfold _identify. keep. Qed.

Lemma keeps_on_open : keeps_config on_open.
Proof. unfold on_open. keep. Qed.

Lemma keeps_on_resume : keeps_config on_resume.
Proof. unfold on_resume. keep. Qed.

Lemma keeps_connect : keeps_config connect.
Proof. unfold connect. keep; apply keeps_on_open. Qed.

Lemma keeps_close : keeps_config close.
Proof. unfold close. keep. Qed.

Hint Resolve keeps_emit keeps__identify keeps_on_open keeps_close : keeps.

Lemma keeps_resume : keeps_config resume.
Proof. unfold resume. keep. Qed.

Lemma keeps_sleep (millis : json) : keeps_config (sleep millis).
Proof.
  destruct millis; simpl; auto with keeps.
  apply keeps_if; auto with keeps.
Qed.

Hint Resolve keeps_resume keeps_sleep : keeps.

Lemma keeps__heartbeat : keeps_config _heartbeat.
Proof. unfold _heartbeat. keep. Qed.

Hint Resolve keeps__heartbeat : keeps.

Lemma keeps__receive_task (frames : list frame) :
  keeps_config (_receive_task frames).
Proof. induction frames as [| f frames IH]; cbn [_receive_task]; keep. Qed.

Lemma keeps__heartbeat_task (ticks : nat) :
  keeps_config (_heartbeat_task ticks).
Proof. induction ticks as [| ticks IH]; cbn [_heartbeat_task]; keep. Qed.

Hint Resolve keeps__receive_task keeps__heartbeat_task : keeps.

Lemma keeps_perform (a : activity) : keeps_config (perform a).
Proof. destruct a; cbn [perform]; keep. Qed.

(** X1: whatever a started client goes through (frames received, ticks,
    handlers, identify, resume, close), its URL, codec, compression mode,
    shard identity and token are those it had: only the constructor and
    [start] write them. *)
Theorem X1_configuration_is_never_written (l : list activity) (w : world) :
  config (self (perform_all l w)) = config (self w).
Proof.
  revert w; induction l as [| a l IH]; intros w; simpl; [reflexivity |].
  rewrite IH. apply keeps_perform.
Qed.

End Config.

(* ===================================================================== *)
(** ** The constructor and the edges of the receive path *)
(* ===================================================================== *)

Section Edges.

Context {R : Runtime}.

(** What [_receive] answers once the frame is reassembled: the codec's
    error as [EncodingError], a dict as the message, and [AttributeError]
    for any other value, which has no [get]. *)
Lemma _receive_after_reassemble (f m : frame) (w w1 : world) :
  reassemble f w = (Ok m, w1) ->
  fst (_receive f w) =
  match decode (encoder (self w)) m with
  | inl msg => Raise (EncodingError msg)
  | inr (JDict d) => Ok (JDict d)
  | inr _ => Raise AttributeError
  end.
Proof.
  intros Re.
  pose proof (reassemble_same_session f w) as S.
  rewrite Re in S; simpl in S.
  assert (E : encoder (self w1) = encoder (self w)) by apply S.
  unfold _receive; run. rewrite Re; run. rewrite E.
  destruct (decode (encoder (self w)) m) as [msg | v]; run; [reflexivity |].
  destruct v; run; try reflexivity.
  destruct (lookup "s" d) as [v |] eqn:L; run; rewrite ?L; run;
    [destruct (truthy v); run; rewrite ?L |]; reflexivity.
Qed.

(** X2: the constructor looks the encoding up in [ENCODERS], ["json"] when
    none is given, and raises [KeyError] for a name that is not there;
    otherwise the client is stopped, unconnected, with an empty buffer and
    no sequence, compressed unless told otherwise, and its URL is the
    address followed by the version, the codec's wire name and, under
    compression only, [&compress=zlib-stream]. *)
Theorem X2_constructor (address : string) (kw : kwargs) :
  let name := match kw_encoding kw with Some n => n | None => "json" end in
  let compressed :=
    match kw_zlib_compressed kw with Some b => b | None => true end in
  (ENCODERS name = None -> __init__ address kw = Raise (KeyError name)) /\
  (forall enc, ENCODERS name = Some enc ->
     exists c,
       __init__ address kw = Ok c /\
       encoder c = enc /\
       zlib_compressed c = compressed /\
       url c = (if compressed
                then (address ++ "/?v=6&encoding=" ++ TYPE enc)
                       ++ "&compress=zlib-stream"
                else address ++ "/?v=6&encoding=" ++ TYPE enc) /\
       _running c = false /\ _con c = None /\ _tg c = None /\
       buffer c = [] /\ _last_sequence c = JNull /\
       shard_id c = kw_shard_id kw /\ shard_count c = kw_shard_count kw).
Proof.
  intros name compressed. unfold __init__. fold name. split.
  - intros E. rewrite E. reflexivity.
  - intros enc E. rewrite E. eexists. split; [reflexivity |].
    unfold format_url; simpl. fold compressed.
    repeat split; destruct compressed; reflexivity.
Qed.

(** X3: under compression, a frame that brings the suffix hands the whole
    buffer, the frame included, to the one decompression object; when that
    and the decoding of its bytes succeed, the text goes on to the codec,
    the buffer is empty again and the rest of the session is as it was. *)
Theorem X3_complete_unit_is_inflated_and_cleared
        (w : world) (b raw : list byte) (text : string) :
  zlib_compressed (self w) = true ->
  endswith (buffer (self w) ++ b) ZLIB_SUFFIX = true ->
  inflate (inflator (self w)) (buffer (self w) ++ b) = Some raw ->
  bytes_decode raw = Some text ->
  exists w',
    reassemble (Binary b) w = (Ok (Text text), w') /\
    buffer (self w') = [] /\
    inflator (self w') = (inflator (self w) ++ buffer (self w) ++ b)%list /\
    same_session w w' /\
    fst (_receive (Binary b) w) =
      match decode (encoder (self w)) (Text text) with
      | inl msg => Raise (EncodingError msg)
      | inr (JDict d) => Ok (JDict d)
      | inr _ => Raise AttributeError
      end.
Proof.
  intros Zc End Inf Dec.
  assert (Re : exists w',
             reassemble (Binary b) w = (Ok (Text text), w') /\
             buffer (self w') = [] /\
             inflator (self w') = (inflator (self w) ++ buffer (self w) ++ b)%list).
  { unfold reassemble; run. rewrite Zc; run. rewrite End; run.
    rewrite Inf; run. rewrite Dec; run.
    eexists; repeat split. }
  destruct Re as (w' & Re & B & I).
  exists w'.
  split; [exact Re |]. split; [exact B |]. split; [exact I |]. split.
  - pose proof (reassemble_same_session (Binary b) w) as S.
    rewrite Re in S. exact S.
  - apply (_receive_after_reassemble _ _ _ _ Re).
Qed.

(** X4: under compression, when the decompression of a complete unit
    fails, or its bytes are not text, [_receive] ends with [zlib.error] or
    [UnicodeDecodeError] before the buffer is cleared: the unit stays in
    the buffer, and the decompression object has seen it. *)
Theorem X4_failed_unit_stays_in_the_buffer (w : world) (b : list byte) :
  zlib_compressed (self w) = true ->
  endswith (buffer (self w) ++ b) ZLIB_SUFFIX = true ->
  (inflate (inflator (self w)) (buffer (self w) ++ b) = None \/
   exists raw, inflate (inflator (self w)) (buffer (self w) ++ b) = Some raw /\
               bytes_decode raw = None) ->
  exists e w',
    _receive (Binary b) w = (Raise e, w') /\
    (e = ZlibError \/ e = UnicodeDecodeError) /\
    buffer (self w') = (buffer (self w) ++ b)%list /\
    inflator (self w') = (inflator (self w) ++ buffer (self w) ++ b)%list /\
    _last_sequence (self w') = _last_sequence (self w).
Proof.
  intros Zc End [Inf | (raw & Inf & Dec)].
  - exists ZlibError. eexists.
    unfold _receive, reassemble; run. rewrite Zc; run. rewrite End; run.
    rewrite Inf; run. repeat split. left; reflexivity.
  - exists UnicodeDecodeError. eexists.
    unfold _receive, reassemble; run. rewrite Zc; run. rewrite End; run.
    rewrite Inf; run. rewrite Dec; run. repeat split. right; reflexivity.
Qed.

(** X5: without compression the reassembly keeps no state, whatever the
    frame: an empty frame raises [IndexError]; a text that opens with a
    brace and bytes that open with 131 go to the codec as they are; any
    other text raises [TypeError]. *)
Theorem X5_uncompressed_frames (f : frame) (w : world) :
  zlib_compressed (self w) = false ->
  snd (reassemble f w) = w /\
  (f = Text EmptyString \/ f = Binary [] ->
   fst (reassemble f w) = Raise IndexError) /\
  (forall s, f = Text (String "{" s) -> fst (reassemble f w) = Ok f) /\
  (forall b, f = Binary (x83 :: b) -> fst (reassemble f w) = Ok f) /\
  (forall ch s, f = Text (String ch s) -> ch <> "{"%char ->
   fst (reassemble f w) = Raise TypeError).
Proof.
  intros Zc. unfold reassemble; run. rewrite Zc.
  split; [| split; [| split; [| split]]].
  - destruct f as [[| ch s] | [| b0 b]]; run; try reflexivity.
    + destruct (Ascii.eqb ch "{"); reflexivity.
    + destruct (Byte.eqb b0 x83); run; [reflexivity |].
      destruct (zlib_decompress (b0 :: b) 15 TEN_MEGABYTES) as [raw |]; run;
        [destruct (bytes_decode raw); run |]; reflexivity.
  - intros [-> | ->]; reflexivity.
  - intros s ->. reflexivity.
  - intros b ->. reflexivity.
  - intros ch s -> N. simpl.
    destruct (Ascii.eqb_spec ch "{"); [contradiction | reflexivity].
Qed.

(** X6: without compression, bytes that do not open with 131 are taken
    for a one-shot compressed message: they are decompressed on their own,
    with window 15 and the ten-megabyte limit, and decoded as text for the
    codec; a failure of either step ends [_receive]. *)
Theorem X6_uncompressed_bytes_are_decompressed
        (b0 : byte) (b : list byte) (w : world) :
  zlib_compressed (self w) = false ->
  b0 <> x83 ->
  reassemble (Binary (b0 :: b)) w =
    (match zlib_decompress (b0 :: b) 15 10490000 with
     | None => Raise ZlibError
     | Some raw =>
         match bytes_decode raw with
         | None => Raise UnicodeDecodeError
         | Some text => Ok (Text text)
         end
     end, w).
Proof.
  intros Zc N. unfold reassemble; run. rewrite Zc; run.
  destruct (Byte.eqb b0 x83) eqn:E.
  - apply Byte.byte_dec_bl in E. contradiction.
  - run. unfold TEN_MEGABYTES.
    destruct (zlib_decompress (b0 :: b) 15 10490000) as [raw |]; run;
      [destruct (bytes_decode raw); run |]; reflexivity.
Qed.

(** X7: under compression a text frame that is not empty cannot go into
    the buffer: [_receive] raises [TypeError], nothing is written, and the
    receive loop ends with it. *)
Theorem X7_text_frame_under_compression
        (ch : ascii) (s : string) (frames : list frame) (w : world) :
  zlib_compressed (self w) = true ->
  _receive (Text (String ch s)) w = (Raise TypeError, w) /\
  (_running (self w) = true ->
   _receive_task (Text (String ch s) :: frames) w = (Raise TypeError, w)).
Proof.
  intros Zc.
  assert (H : _receive (Text (String ch s)) w = (Raise TypeError, w)).
  { unfold _receive, reassemble; run. rewrite Zc. reflexivity. }
  split; [exact H |].
  intros Run. cbn [_receive_task]; run. rewrite Run, H. reflexivity.
Qed.

(** X8: a value of the codec that is not a dict has no [get]: [_receive]
    raises [AttributeError] after the reassembly, and the receive loop ends
    with it. *)
Theorem X8_message_that_is_not_a_dict
        (f m : frame) (frames : list frame) (w w1 : world) (v : json) :
  reassemble f w = (Ok m, w1) ->
  decode (encoder (self w)) m = inr v ->
  (forall d, v <> JDict d) ->
  _receive f w = (Raise AttributeError, w1) /\
  (_running (self w) = true ->
   _receive_task (f :: frames) w = (Raise AttributeError, w1)).
Proof.
  intros Re De N.
  pose proof (reassemble_same_session f w) as S.
  rewrite Re in S; simpl in S.
  assert (E : encoder (self w1) = encoder (self w)) by apply S.
  assert (H : _receive f w = (Raise AttributeError, w1)).
  { unfold _receive; run. rewrite Re; run. rewrite E, De; run.
    destruct v; run; try reflexivity. exfalso; apply (N d); reflexivity. }
  split; [exact H |].
  intros Run. cbn [_receive_task]; run. rewrite Run, H. reflexivity.
Qed.

End Edges.

(* ===================================================================== *)
(** ** Dispatch, sending and closing *)
(* ===================================================================== *)

Section Dispatch.

Context {R : Runtime}.

(** X9: the receive loop hands the [d] of a message to the emitter under
    its [t] when its [op] equals 0 and under its [op] otherwise, and goes
    on with the next frame. *)
Theorem X9_dispatch_routing
        (f : frame) (frames : list frame) (w w1 : world)
        (d : list (string * json)) (op data : json) :
  _running (self w) = true ->
  _receive f w = (Ok (JDict d), w1) ->
  lookup "op" d = Some op ->
  lookup "d" d = Some data ->
  (eq_zero op = false ->
   _receive_task (f :: frames) w = (emit op data ;; _receive_task frames) w1) /\
  (eq_zero op = true -> forall t, lookup "t" d = Some t ->
   _receive_task (f :: frames) w = (emit t data ;; _receive_task frames) w1).
Proof.
  intros Run Re Lop Ld. split.
  - intros Z. cbn [_receive_task]. unfold bind at 1, get_self at 1.
    rewrite Run. unfold bind at 1. rewrite Re.
    unfold bind at 1, getitem at 1, or_raise, ret. rewrite Lop.
    rewrite Z. unfold bind at 1. unfold bind at 1. unfold bind at 1.
    unfold getitem at 1, or_raise, ret. rewrite Lop.
    unfold bind at 1. unfold getitem at 1, or_raise, ret. rewrite Ld.
    reflexivity.
  - intros Z t Lt. cbn [_receive_task]. unfold bind at 1, get_self at 1.
    rewrite Run. unfold bind at 1. rewrite Re.
    unfold bind at 1, getitem at 1, or_raise, ret. rewrite Lop.
    rewrite Z. unfold bind at 1. unfold bind at 1. unfold bind at 1.
    unfold getitem at 1, or_raise, ret. rewrite Lt.
    unfold bind at 1. unfold getitem at 1, or_raise, ret. rewrite Ld.
    reflexivity.
Qed.

(** The loop on a frame whose message lacks a key it reads. *)
Lemma _receive_task_head
      (f : frame) (frames : list frame) (w w1 : world)
      (d : list (string * json)) :
  _running (self w) = true ->
  _receive f w = (Ok (JDict d), w1) ->
  _receive_task (f :: frames) w =
    ((op <- getitem (JDict d) "op" ;;
      (if eq_zero op then
         t <- getitem (JDict d) "t" ;;
         data <- getitem (JDict d) "d" ;;
         emit t data
       else
         op <- getitem (JDict d) "op" ;;
         data <- getitem (JDict d) "d" ;;
         emit op data)) ;;
     _receive_task frames) w1.
Proof.
  intros Run Re. cbn [_receive_task]. unfold bind at 1, get_self at 1.
  rewrite Run. unfold bind at 1. rewrite Re.
  unfold bind. destruct (getitem (JDict d) "op" w1) as [[op | e] w2];
    reflexivity.
Qed.

(** X10: a message without the key the loop reads ends the loop with
    [KeyError]: [op] first, then [t] for a dispatch, then [d]; nothing is
    emitted for it and the frames behind it are not read. *)
Theorem X10_missing_key_ends_the_loop
        (f : frame) (frames : list frame) (w w1 : world)
        (d : list (string * json)) :
  _running (self w) = true ->
  _receive f w = (Ok (JDict d), w1) ->
  (lookup "op" d = None ->
   _receive_task (f :: frames) w = (Raise (KeyError "op"), w1)) /\
  (forall op, lookup "op" d = Some op -> eq_zero op = true ->
   lookup "t" d = None ->
   _receive_task (f :: frames) w = (Raise (KeyError "t"), w1)) /\
  (forall op, lookup "op" d = Some op ->
   eq_zero op = false \/ lookup "t" d <> None ->
   lookup "d" d = None ->
   _receive_task (f :: frames) w = (Raise (KeyError "d"), w1)).
Proof.
  intros Run Re.
  rewrite (_receive_task_head f frames w w1 d Run Re).
  split; [| split].
  - intros L. run. rewrite L. reflexivity.
  - intros op Lop Z Lt. run. rewrite Lop; run. rewrite Z; run.
    rewrite Lt. reflexivity.
  - intros op Lop H Ld. run. rewrite Lop; run.
    destruct (eq_zero op) eqn:Z; run.
    + destruct H as [H | H]; [discriminate |].
      destruct (lookup "t" d); [| contradiction H; reflexivity].
      run. rewrite Ld. reflexivity.
    + rewrite Ld. reflexivity.
Qed.

(** X12: [close] on a client that has no task group yet marks it stopped
    and then raises [AttributeError]; [resume] on a client that is marked
    running without a task group ends the same way, before any connection
    is opened. *)
Theorem X12_close_without_task_group (w : world) :
  _tg (self w) = None ->
  close w = (Raise AttributeError, with_self (set_running false) w) /\
  (_running (self w) = true ->
   resume w = (Raise AttributeError, with_self (set_running false) w)).
Proof.
  intros Tg. split.
  - unfold close; run. rewrite Tg. reflexivity.
  - intros Run. unfold resume, close; run. rewrite Run; run.
    rewrite Tg. reflexivity.
Qed.

(** X13: a command that cannot be sent leaves no trace: a name that is
    not an opcode raises [KeyError], connected or not, and a client without
    a connection raises [AttributeError]; in both cases the world is as it
    was. *)
Theorem X13_send_failures (w : world) (data : json) :
  (forall name, opcodes name = None ->
   _send (inr name) data w = (Raise (KeyError name), w)) /\
  (_con (self w) = None ->
   (forall n, _send (inl n) data w = (Raise AttributeError, w)) /\
   (forall name n, opcodes name = Some n ->
      _send (inr name) data w = (Raise AttributeError, w))).
Proof.
  split.
  - intros name O. unfold _send; run. rewrite O. reflexivity.
  - intros C. split.
    + intros n. unfold _send; run. rewrite C. reflexivity.
    + intros name n O. unfold _send; run. rewrite O; run. rewrite C.
      reflexivity.
Qed.

(** X14: the session id of a READY event is stored and is the one a later
    [resume] carries; a READY payload without [session_id] raises
    [KeyError] and the stored id stays. *)
Theorem X14_ready_session_id (w : world) (data : list (string * json)) :
  (forall sid, lookup "session_id" data = Some sid ->
     let w1 := snd (emit (JStr "READY") (JDict data) w) in
     fst (emit (JStr "READY") (JDict data) w) = Ok tt /\
     _session_id (self w1) = sid /\
     lookup "session_id" (resume_payload (self w1)) = Some sid /\
     trace w1 = (trace w ++ [Emitted (JStr "READY") (JDict data)])%list) /\
  (lookup "session_id" data = None ->
     emit (JStr "READY") (JDict data) w =
       (Raise (KeyError "session_id"),
        with_event (Emitted (JStr "READY") (JDict data)) w)).
Proof.
  split.
  - intros sid L w1. unfold w1, emit; run. unfold _on_ready, getitem; run.
    rewrite L; run. repeat split.
  - intros L. unfold emit; run. unfold _on_ready, getitem; run.
    rewrite L. reflexivity.
Qed.

(** The fields of the identify payload that are always there. *)
Lemma identify_payload_fixed (c : client) :
  lookup "token" (identify_payload c) = Some (JStr (_token c)) /\
  lookup "compress" (identify_payload c) = Some (JBool true) /\
  lookup "large_threshold" (identify_payload c) = Some (JInt 250) /\
  lookup "properties" (identify_payload c) =
    Some (JDict [ ("$os", JStr platform_system);
                  ("$browser", JStr "clamor");
                  ("$device", JStr "clamor") ]).
Proof.
  unfold identify_payload.
  destruct (truthy_opt (shard_id c) && truthy_opt (shard_count c))%bool;
    repeat split.
Qed.

(** X15: [start] stores the token, opens one connection, marks the client
    running and starts the receive loop and [_identify] in a new task
    group, no heartbeat loop; it sends nothing itself, and [_identify] then
    sends the identify command with that token on that connection. *)
Theorem X15_start (token : string) (w : world) :
  exists w',
    start token w = (Ok tt, w') /\
    trace w' = (trace w ++ [ Opened (connections w) (url (self w));
                             Group (groups w);
                             Spawned (groups w) T_receive_task;
                             Spawned (groups w) T_identify ])%list /\
    _token (self w') = token /\
    _con (self w') = Some (connections w) /\
    _running (self w') = true /\
    _tg (self w') = Some (groups w) /\
    lookup "token" (identify_payload (self w')) = Some (JStr token) /\
    _identify w' =
      (Ok tt,
       with_event
         (Sent (connections w) (command 2 (JDict (identify_payload (self w')))))
         w').
Proof.
  exists (snd (start token w)).
  split; [reflexivity |].
  split; [simpl; repeat (rewrite <- app_assoc; simpl); reflexivity |].
  do 4 (split; [reflexivity |]).
  split; [apply identify_payload_fixed |].
  change (_identify (snd (start token w))) with
    (_send (inr "IDENTIFY")
       (JDict (identify_payload (self (snd (start token w)))))
       (snd (start token w))).
  apply (_send_name _ "IDENTIFY" 2 _ (connections w)); reflexivity.
Qed.

End Dispatch.

(* ===================================================================== *)
(** ** Heartbeats across receptions and resumes *)
(* ===================================================================== *)

Section Beats.

Context {R : Runtime}.

(** What [_receive] leaves alone, however it ends. *)
Lemma _receive_keeps_session (f : frame) (w : world) :
  let w1 := snd (_receive f w) in
  trace w1 = trace w /\ _con (self w1) = _con (self w) /\
  _interval (self w1) = _interval (self w) /\
  _has_ack (self w1) = _has_ack (self w) /\
  _running (self w1) = _running (self w) /\
  _tg (self w1) = _tg (self w) /\
  _session_id (self w1) = _session_id (self w).
Proof.
  pose proof (reassemble_same_session f w) as S.
  assert (Q : let w1 := snd (reassemble f w) in
              trace w1 = trace w /\ _con (self w1) = _con (self w) /\
              _interval (self w1) = _interval (self w) /\
              _has_ack (self w1) = _has_ack (self w) /\
              _running (self w1) = _running (self w) /\
              _tg (self w1) = _tg (self w) /\
              _session_id (self w1) = _session_id (self w)).
  { destruct S as (T & _ & _ & _ & _ & _ & C & Rn & G & I & _ & A & Si & _).
    simpl. auto 10. }
  clear S. unfold _receive; run.
  destruct (reassemble f w) as [[m | e] w1]; simpl in *; [| exact Q].
  destruct (decode (encoder (self w1)) m) as [msg | v]; simpl; [exact Q |].
  destruct v; simpl; try exact Q.
  destruct (lookup "s" d) as [v |] eqn:L; run; rewrite ?L; run; [| exact Q].
  destruct (truthy v); run; exact Q.
Qed.

(** X17: the heartbeat carries the sequence of the last message received:
    after a message with a non-zero [s], the next acknowledged tick, once
    the sleep has taken the interval, sends opcode 1 with that number. *)
Theorem X17_heartbeat_carries_the_received_sequence
        (f : frame) (w w1 : world) (d : list (string * json))
        (n i : Z) (con : nat) :
  _receive f w = (Ok (JDict d), w1) ->
  lookup "s" d = Some (JInt n) ->
  n <> 0 ->
  _con (self w) = Some con ->
  _interval (self w) = JInt i ->
  sound_interval i ->
  _has_ack (self w) = true ->
  exists w2,
    _heartbeat w1 = (Ok tt, w2) /\
    trace w2 = (trace w ++ [Slept (JInt i); Sent con (command 1 (JInt n))])%list.
Proof.
  intros Re L N C I [_ O] A.
  pose proof (_receive_sequence f w) as Q.
  pose proof (_receive_keeps_session f w) as K.
  rewrite Re in Q, K; simpl in Q, K. rewrite L in Q; simpl in Q.
  destruct (Z.eqb_spec n 0) as [E | _]; [contradiction |]. simpl in Q.
  destruct K as (T & C1 & I1 & A1 & _).
  destruct (_heartbeat_acknowledged w1 con i) as (w2 & H & T2 & _).
  - rewrite I1; exact I.
  - exact O.
  - rewrite C1; exact C.
  - rewrite A1; exact A.
  - exists w2. split; [exact H |]. rewrite T2, T, Q. reflexivity.
Qed.

(** X19: the identify payload has a [shard] entry exactly when the shard
    index and the shard count are both given and both non-zero, and the
    entry is then the pair of the two. *)
Theorem X19_shard_entry (c : client) (v : json) :
  lookup "shard" (identify_payload c) = Some v <->
  exists i n,
    shard_id c = Some i /\ shard_count c = Some n /\
    i <> 0 /\ n <> 0 /\ v = JList [JInt i; JInt n].
Proof.
  unfold identify_payload. split.
  - destruct (shard_id c) as [i |]; simpl; [| discriminate].
    destruct (Z.eqb_spec i 0) as [Ei | Ni]; simpl; [discriminate |].
    destruct (shard_count c) as [n |]; simpl; [| discriminate].
    destruct (Z.eqb_spec n 0) as [En | Nn]; simpl; [discriminate |].
    intros H; inversion H. exists i, n. auto.
  - intros (i & n & Id & Count & Hi & Hn & ->).
    rewrite Id, Count; simpl.
    destruct (Z.eqb_spec i 0) as [Ei | Ni]; [contradiction |].
    destruct (Z.eqb_spec n 0) as [En | Nn]; [contradiction |].
    reflexivity.
Qed.

(** X20: the hello handler reads [heartbeat_interval] first: a payload
    that is not a dict raises [TypeError] and one without the key
    [KeyError], the client untouched; with the key but no task group the
    interval is stored and then [AttributeError] is raised. *)
Theorem X20_hello_failures (w : world) (data : json) :
  ((forall d, data <> JDict d) ->
   _on_hello data w = (Raise TypeError, w)) /\
  (forall d, data = JDict d -> lookup "heartbeat_interval" d = None ->
   _on_hello data w = (Raise (KeyError "heartbeat_interval"), w)) /\
  (forall d v, data = JDict d -> lookup "heartbeat_interval" d = Some v ->
   _tg (self w) = None ->
   _on_hello data w = (Raise AttributeError, with_self (set_interval v) w)).
Proof.
  split; [| split].
  - intros N. unfold _on_hello, getitem; run.
    destruct data; run; try reflexivity. exfalso; apply (N d); reflexivity.
  - intros d -> L. unfold _on_hello, getitem; run. rewrite L. reflexivity.
  - intros d v -> L Tg. unfold _on_hello, getitem; run. rewrite L; run.
    rewrite Tg. reflexivity.
Qed.

(** X21: the interval of the hello is stored as it comes; when it is not
    a number (null, a string, a list, a dict) the first tick raises
    [TypeError] at the sleep, before anything is sent, and the heartbeat
    loop ends with it. *)
Theorem X21_interval_is_not_validated
        (w : world) (d : list (string * json)) (v : json)
        (tg ticks : nat) :
  lookup "heartbeat_interval" d = Some v ->
  _tg (self w) = Some tg ->
  _running (self w) = true ->
  (v = JNull \/ (exists s, v = JStr s) \/ (exists l, v = JList l) \/
   (exists x, v = JDict x)) ->
  let w1 := snd (_on_hello (JDict d) w) in
  fst (_on_hello (JDict d) w) = Ok tt /\
  _interval (self w1) = v /\
  _heartbeat w1 = (Raise TypeError, w1) /\
  _heartbeat_task (S ticks) w1 = (Raise TypeError, w1).
Proof.
  intros L Tg Run V w1.
  unfold w1. rewrite (_on_hello_arms d v tg w L Tg). cbn [fst snd].
  split; [reflexivity |]. split; [reflexivity |].
  assert (H : _heartbeat (with_event (Spawned tg T_heartbeat_task)
                            (with_self (set_interval v) w)) =
              (Raise TypeError,
               with_event (Spawned tg T_heartbeat_task)
                 (with_self (set_interval v) w))).
  { unfold _heartbeat, sleep; run.
    destruct V as [-> | [(s & ->) | [(l & ->) | (x & ->)]]]; reflexivity. }
  split; [exact H |].
  cbn [_heartbeat_task]. unfold bind at 1, get_self at 1.
  cbn [self with_event with_self _running set_interval]. rewrite Run.
  unfold bind at 1. rewrite H. reflexivity.
Qed.

End Beats.

(* ===================================================================== *)
(** ** Reassembly across frames and connections *)
(* ===================================================================== *)

Section Stream.

Context {R : Runtime}.

(** After the reassembly, [_receive] writes neither the buffer nor the
    decompression object. *)
Lemma _receive_buffer (f : frame) (w : world) :
  buffer (self (snd (_receive f w))) = buffer (self (snd (reassemble f w))) /\
  inflator (self (snd (_receive f w))) = inflator (self (snd (reassemble f w))) /\
  zlib_compressed (self (snd (_receive f w))) =
    zlib_compressed (self (snd (reassemble f w))).
Proof.
  unfold _receive; run.
  destruct (reassemble f w) as [[m | e] w1]; simpl; [| auto].
  destruct (decode (encoder (self w1)) m) as [msg | v]; simpl; [auto |].
  destruct v; simpl; auto.
  destruct (lookup "s" d) as [v |] eqn:L; run; rewrite ?L; run; [| auto].
  destruct (truthy v); run; auto.
Qed.

(** X22: under compression the frames since the last complete unit are
    decompressed together: after a frame without the suffix, however
    [_receive] ended on it, the frame that brings the suffix hands the
    buffer, both frames included, to the decompression object, and the
    buffer is empty again. *)
Theorem X22_frames_are_decompressed_together
        (w : world) (b1 b2 raw : list byte) (text : string) :
  zlib_compressed (self w) = true ->
  endswith (buffer (self w) ++ b1) ZLIB_SUFFIX = false ->
  endswith ((buffer (self w) ++ b1) ++ b2) ZLIB_SUFFIX = true ->
  inflate (inflator (self w)) ((buffer (self w) ++ b1) ++ b2) = Some raw ->
  bytes_decode raw = Some text ->
  let w1 := snd (_receive (Binary b1) w) in
  exists w2,
    reassemble (Binary b2) w1 = (Ok (Text text), w2) /\
    buffer (self w2) = [] /\
    inflator (self w2) =
      (inflator (self w) ++ (buffer (self w) ++ b1) ++ b2)%list.
Proof.
  intros Zc E1 E2 Inf Dec w1.
  assert (Re : reassemble (Binary b1) w = (Ok (Binary b1), buffered b1 w)).
  { unfold reassemble, buffered; run. rewrite Zc, E1. reflexivity. }
  destruct (_receive_buffer (Binary b1) w) as (B & I & Z).
  rewrite Re in B, I, Z. simpl in B, I, Z. fold w1 in B, I, Z.
  unfold reassemble; run. rewrite Z, Zc; run.
  rewrite B, E2; run. rewrite I, Inf; run. rewrite Dec; run.
  eexists; repeat split.
Qed.

(** X23: [close], [connect], [start] and [resume] write neither the
    reassembly buffer nor the decompression object: the bytes buffered on
    the old connection and the state of the old stream are what the first
    frame of the new connection meets. *)
Theorem X23_reconnecting_keeps_the_buffer (w : world) (token : string) :
  (buffer (self (snd (close w))) = buffer (self w) /\
   inflator (self (snd (close w))) = inflator (self w)) /\
  (buffer (self (snd (connect w))) = buffer (self w) /\
   inflator (self (snd (connect w))) = inflator (self w)) /\
  (buffer (self (snd (start token w))) = buffer (self w) /\
   inflator (self (snd (start token w))) = inflator (self w)) /\
  (buffer (self (snd (resume w))) = buffer (self w) /\
   inflator (self (snd (resume w))) = inflator (self w)).
Proof.
  split; [| split; [| split]].
  - unfold close; run. destruct (_tg (self w)); split; reflexivity.
  - split; reflexivity.
  - split; reflexivity.
  - unfold resume, close, on_open, _send, open_connection, create_task_group;
      run.
    destruct (_running (self w)); run;
      [destruct (_tg (self w)); run |]; split; reflexivity.
Qed.

(** X24: decoding a frame has no effect outside the client and touches
    neither the connection nor the heartbeat: however [_receive] ends, the
    trace, the connection, the task group, the running mark, the interval,
    the acknowledgement flag and the session id are as before. *)
Theorem X24_receive_has_no_outside_effect (f : frame) (w : world) :
  let w1 := snd (_receive f w) in
  trace w1 = trace w /\ _con (self w1) = _con (self w) /\
  _interval (self w1) = _interval (self w) /\
  _has_ack (self w1) = _has_ack (self w) /\
  _running (self w1) = _running (self w) /\
  _tg (self w1) = _tg (self w) /\
  _session_id (self w1) = _session_id (self w).
Proof. apply _receive_keeps_session. Qed.

End Stream.

Section Rhythm.

Context {R : Runtime}.

(** The world an acknowledged tick leaves. *)
Lemma _heartbeat_acknowledged_world (w : world) (con : nat) (i : Z) :
  _interval (self w) = JInt i ->
  overflows i = false ->
  _con (self w) = Some con ->
  _has_ack (self w) = true ->
  _heartbeat w =
    (Ok tt,
     with_self (set_has_ack false)
       (with_event (Sent con (command 1 (_last_sequence (self w))))
          (with_event (Slept (JInt i)) w))).
Proof.
  intros I O C A.
  unfold _heartbeat, sleep, _send; run.
  rewrite I; run. rewrite O; run. rewrite A; run. rewrite C; run.
  reflexivity.
Qed.

(** X25: with an interval the sleep takes and an acknowledgement before
    every tick, [n] turns of the heartbeat loop send [n] heartbeats, one
    after each sleep, all on the same connection and with the stored
    sequence, and nothing else. *)
Theorem X25_acknowledged_ticks_send_one_beat_each (n : nat) :
  forall (w : world) (con : nat) (i : Z) (data : json),
    _running (self w) = true ->
    _con (self w) = Some con ->
    _interval (self w) = JInt i ->
    sound_interval i ->
    let w' := perform_all (List.concat (repeat [Ack data; Beats 1] n)) w in
    trace w' =
      (trace w ++
       List.concat (repeat [ Slept (JInt i);
                        Sent con (command 1 (_last_sequence (self w))) ] n))%list /\
    _running (self w') = true /\ _con (self w') = Some con /\
    _interval (self w') = JInt i /\
    _last_sequence (self w') = _last_sequence (self w).
Proof.
  induction n as [| n IH]; intros w con i data Run C I S.
  - simpl. rewrite app_nil_r. auto.
  - cbn [repeat List.concat app perform_all].
    set (wa := snd (perform (Ack data) w)).
    assert (Ha : wa = with_self (set_has_ack true) w) by reflexivity.
    assert (Hb : snd (perform (Beats 1) wa) =
                 with_self (set_has_ack false)
                   (with_event (Sent con (command 1 (_last_sequence (self w))))
                      (with_event (Slept (JInt i)) wa))).
    { cbn [perform _heartbeat_task]. unfold bind at 1. unfold bind at 1.
      unfold get_self at 1.
      replace (_running (self wa)) with true by (rewrite Ha; symmetry; exact Run).
      unfold bind at 1.
      rewrite (_heartbeat_acknowledged_world wa con i);
        try (rewrite Ha; simpl; assumption);
        [| apply S | rewrite Ha; reflexivity].
      unfold bind at 1, get_self at 1.
      replace (_last_sequence (self wa)) with (_last_sequence (self w))
        by (rewrite Ha; reflexivity).
      cbn [self with_self with_event _running set_has_ack].
      replace (_running (self wa)) with true by (rewrite Ha; symmetry; exact Run).
      reflexivity. }
    rewrite Hb.
    match goal with
    | |- context [perform_all _ ?x] => set (wb := x)
    end.
    destruct (IH wb con i data) as (T & Run' & C' & I' & S');
      try exact S; try (unfold wb; rewrite Ha; simpl; assumption).
    split; [| split; [exact Run' | split; [exact C' | split; [exact I' |]]]].
    + rewrite T. unfold wb; rewrite Ha; simpl.
      repeat (rewrite <- app_assoc; simpl). reflexivity.
    + rewrite S'. unfold wb; rewrite Ha; reflexivity.
Qed.

End Rhythm.

(* ===================================================================== *)
(** ** The properties on the sample client *)
(* ===================================================================== *)

Lemma C10_encoding_error_keeps_sequence_witness :
  let w := Sample.after (_receive (R := Sample.runtime) (Text "{event 5}"))
             Sample.plain in
  _last_sequence (self w) = JInt 5 /\
  _last_sequence
    (self (snd (_receive (R := Sample.runtime) (Text "{bad}") w))) = JInt 5.
Proof.
  intros w. split; [vm_compute; reflexivity |].
  transitivity (_last_sequence (self w)); [| vm_compute; reflexivity].
  apply (C10_encoding_error_keeps_sequence (R := Sample.runtime)
           (Text "{bad}") w
           (snd (_receive (R := Sample.runtime) (Text "{bad}") w))
           "Expecting value").
  vm_compute; reflexivity.
Defined.

Lemma C1_sequence_follows_the_message_witness :
  exists d,
    Sample.event_message 5 = JDict d /\
    lookup "s" d = Some (JInt 5) /\
    _last_sequence
      (self (snd (_receive (R := Sample.runtime) (Text "{event 5}")
                    Sample.plain))) = JInt 5.
Proof.
  destruct (C1_sequence_follows_the_message (R := Sample.runtime)
              (Text "{event 5}") Sample.plain
              (snd (_receive (R := Sample.runtime) (Text "{event 5}")
                      Sample.plain))
              (Sample.event_message 5) eq_refl)
    as (d & E & Set_ & _).
  exists d. split; [exact E |].
  inversion E; subst d.
  split; [reflexivity |].
  apply Set_; [reflexivity | lia].
Defined.

(** C1 as stated fails: a message with [s = 3] after one with [s = 5] takes
    the stored sequence from 5 down to 3. *)
Lemma C1_sequence_can_decrease :
  let w1 := Sample.after (_receive (R := Sample.runtime) (Text "{event 5}"))
              Sample.plain in
  let w2 := Sample.after (_receive (R := Sample.runtime) (Text "{event 3}"))
              w1 in
  fst (_receive (R := Sample.runtime) (Text "{event 3}") w1)
    = Ok (Sample.event_message 3) /\
  _last_sequence (self w1) = JInt 5 /\
  _last_sequence (self w2) = JInt 3 /\
  3 < 5.
Proof. repeat split. Qed.

Lemma C3_decode_failure_ends_the_loop_witness :
  _receive_task (R := Sample.runtime) [Text "{bad}"; Text "{ack}"] Sample.plain
  = (Raise (EncodingError "Expecting value"), Sample.plain).
Proof.
  apply (C3_decode_failure_ends_the_loop (R := Sample.runtime)
           (Text "{bad}") (Text "{bad}") [Text "{ack}"] Sample.plain
           Sample.plain "Expecting value"); reflexivity.
Defined.

(** C3 as stated fails: after a frame the codec rejects, the loop is over
    with the error and the acknowledgement behind it is never emitted,
    though the same frame alone is. *)
Lemma C3_loop_does_not_continue :
  fst (_receive_task (R := Sample.runtime) [Text "{bad}"; Text "{ack}"]
         Sample.plain) = Raise (EncodingError "Expecting value") /\
  trace (snd (_receive_task (R := Sample.runtime)
                [Text "{bad}"; Text "{ack}"] Sample.plain))
    = trace Sample.plain /\
  trace (snd (_receive_task (R := Sample.runtime) [Text "{ack}"] Sample.plain))
    = (trace Sample.plain ++ [Emitted (JInt 11) JNull])%list.
Proof. repeat split. Qed.

Lemma C2_partial_frame_goes_to_the_codec_witness :
  _receive_task (R := Sample.runtime)
    [Binary Sample.chunk1; Binary Sample.chunk2; Binary Sample.chunk3]
    Sample.streamed
  = (Raise (EncodingError "Expecting value"),
     buffered Sample.chunk1 Sample.streamed).
Proof.
  apply (C2_partial_frame_goes_to_the_codec (R := Sample.runtime)
           Sample.chunk1 [Binary Sample.chunk2; Binary Sample.chunk3]
           Sample.streamed); reflexivity.
Defined.

Lemma C4_heartbeat_tick_witness :
  awaitingAck (self Sample.armed) = false /\
  exists w',
    _heartbeat Sample.armed = (Ok tt, w') /\
    trace w' = (trace Sample.armed ++
                [Slept (JInt 45000); Sent 0 (command 1 JNull)])%list /\
    awaitingAck (self w') = true.
Proof.
  split; [reflexivity |].
  apply (proj1 (C4_heartbeat_tick Sample.armed 0%nat 45000 eq_refl
                  ltac:(split; [lia | vm_compute; reflexivity]) eq_refl)).
  reflexivity.
Defined.

Lemma C5_shard_zero_is_left_out_witness :
  shard_id (self Sample.sharded) = Some 0 /\
  shard_count (self Sample.sharded) = Some 4 /\
  lookup "shard" (identify_payload (R := Sample.runtime) (self Sample.sharded))
    = None.
Proof.
  split; [reflexivity |]. split; [reflexivity |].
  apply (proj1 (C5_shard_zero_is_left_out (R := Sample.runtime)
                  Sample.sharded 0%nat 4 eq_refl eq_refl eq_refl)).
Defined.

Lemma C6_resume_payload_witness :
  let later :=
    [ Receives [Binary (Sample.bytes_of "{ready}" ++ ZLIB_SUFFIX)];
      Receives [Binary (Sample.bytes_of "{event 5}" ++ ZLIB_SUFFIX)] ] in
  let text :=
    command 6 (JDict [("token", JStr "tok"); ("session_id", JInt 0);
                      ("seq", JNull)]) in
  let w' := snd (resume Sample.armed) in
  _session_id (self (perform_all (R := Sample.runtime) later w')) = JStr "abc" /\
  _last_sequence (self (perform_all (R := Sample.runtime) later w')) = JInt 5 /\
  In (Sent 1 text) (trace (perform_all (R := Sample.runtime) later w')).
Proof.
  intros later text w'.
  split; [vm_compute; reflexivity |]. split; [vm_compute; reflexivity |].
  destruct (C6_resume_payload (R := Sample.runtime) Sample.armed later)
    as (w'' & H & _ & _ & I); [discriminate |].
  pose proof (f_equal snd H) as E. cbn [snd] in E.
  rewrite <- E in I. exact I.
Defined.

Lemma C7_resume_reopens_with_on_open_witness :
  exists w',
    resume Sample.armed = (Ok tt, w') /\
    trace w' =
      (trace Sample.armed ++
       [ Cancelled 0; Opened 1 (url (self Sample.armed));
         Sent 1 (command 6 (JDict (resume_payload (self Sample.armed))));
         Group 1; Spawned 1 T_receive_task; Spawned 1 T_identify ])%list /\
    fst (_identify (R := Sample.runtime) w') = Ok tt.
Proof.
  destruct (C7_resume_reopens_with_on_open (R := Sample.runtime)
              Sample.armed 0%nat eq_refl eq_refl) as (w' & H & T & I).
  exists w'. split; [exact H |]. split; [exact T |].
  rewrite I. reflexivity.
Defined.

Lemma C8_flag_is_set_by_the_constructor_witness :
  awaitingAck (self (Sample.fresh no_kwargs)) = false.
Proof.
  apply (proj1 (C8_flag_is_set_by_the_constructor (R := Sample.runtime)
                  Sample.gateway no_kwargs (self (Sample.fresh no_kwargs))
                  eq_refl)).
Defined.

(** C8 as stated fails: after the constructor, [start] and the hello of the
    gateway, the client is not awaiting an acknowledgement, and its first
    tick sends a heartbeat. *)
Lemma C8_not_awaiting_at_first_tick :
  awaitingAck (self Sample.armed) = false /\
  _heartbeat Sample.armed =
    (Ok tt,
     with_self (set_has_ack false)
       (with_event (Sent 0 (command 1 JNull))
          (with_event (Slept (JInt 45000)) Sample.armed))).
Proof. split; vm_compute; reflexivity. Qed.

Lemma C9_commands_are_json_text_witness :
  let w := with_self (set_encoder (Sample.codec "etf")) Sample.streamed in
  TYPE (encoder (self w)) = "etf" /\
  _send (inl 1) JNull w =
    (Ok tt,
     with_event (Sent 0 (json_dumps (JDict [("op", JInt 1); ("d", JNull)]))) w).
Proof.
  intros w. split; [reflexivity |].
  apply (proj1 (C9_commands_are_json_text (R := Sample.runtime)
                  Sample.streamed (Sample.codec "etf") 0%nat JNull eq_refl)).
Defined.

Lemma X2_constructor_witness :
  (exists c,
     __init__ (R := Sample.runtime) Sample.gateway
       (mkKwargs (Some "etf") (Some false) None None) = Ok c /\
     url c = "wss://gateway.discord.gg/?v=6&encoding=etf") /\
  __init__ (R := Sample.runtime) Sample.gateway
    (mkKwargs (Some "xml") None None None) = Raise (KeyError "xml").
Proof.
  split.
  - destruct (proj2 (X2_constructor (R := Sample.runtime) Sample.gateway
                       (mkKwargs (Some "etf") (Some false) None None))
                (Sample.codec "etf") eq_refl)
      as (c & H & _ & _ & U & _).
    exists c. split; [exact H | exact U].
  - apply (proj1 (X2_constructor (R := Sample.runtime) Sample.gateway
                    (mkKwargs (Some "xml") None None None))).
    reflexivity.
Defined.

Lemma X3_complete_unit_is_inflated_and_cleared_witness :
  exists w',
    reassemble (R := Sample.runtime) (Binary Odd.unit5) Sample.streamed
      = (Ok (Text "{event 5}"), w') /\
    buffer (self w') = [].
Proof.
  destruct (X3_complete_unit_is_inflated_and_cleared (R := Sample.runtime)
              Sample.streamed Odd.unit5 (Sample.bytes_of "{event 5}")
              "{event 5}")
    as (w' & H & B & _); try (vm_compute; reflexivity).
  exists w'. split; [exact H | exact B].
Defined.

Lemma X4_failed_unit_stays_in_the_buffer_witness :
  exists e w',
    _receive (R := Sample.runtime) (Binary (xff :: ZLIB_SUFFIX)) Sample.streamed
      = (Raise e, w') /\
    buffer (self w') = xff :: ZLIB_SUFFIX.
Proof.
  destruct (X4_failed_unit_stays_in_the_buffer (R := Sample.runtime)
              Sample.streamed (xff :: ZLIB_SUFFIX))
    as (e & w' & H & _ & B & _); try (vm_compute; reflexivity).
  { right. exists [xff]. split; vm_compute; reflexivity. }
  exists e, w'. split; [exact H | exact B].
Defined.

Lemma X5_uncompressed_frames_witness :
  reassemble (R := Sample.runtime) (Text "{ack}") Sample.plain
  = (Ok (Text "{ack}"), Sample.plain).
Proof.
  destruct (X5_uncompressed_frames (R := Sample.runtime) (Text "{ack}")
              Sample.plain) as (W & _ & T & _); [vm_compute; reflexivity |].
  specialize (T "ack}" eq_refl).
  destruct (reassemble (R := Sample.runtime) (Text "{ack}") Sample.plain);
    simpl in *. rewrite W, T. reflexivity.
Defined.

Lemma X6_uncompressed_bytes_are_decompressed_witness :
  reassemble (R := Sample.runtime) (Binary (Sample.bytes_of "{ack}"))
    Sample.plain
  = (Ok (Text "{ack}"), Sample.plain).
Proof.
  apply (X6_uncompressed_bytes_are_decompressed (R := Sample.runtime)
           "{"%byte (Sample.bytes_of "ack}") Sample.plain);
    [vm_compute; reflexivity | discriminate].
Defined.

Lemma X7_text_frame_under_compression_witness :
  _receive (R := Sample.runtime) (Text "{ack}") Sample.streamed
  = (Raise TypeError, Sample.streamed).
Proof.
  apply (proj1 (X7_text_frame_under_compression (R := Sample.runtime)
                  "{"%char "ack}" [] Sample.streamed
                  ltac:(vm_compute; reflexivity))).
Defined.

Lemma X8_message_that_is_not_a_dict_witness :
  _receive (R := Sample.runtime) (Text "{list}") Odd.plain
  = (Raise AttributeError, Odd.plain).
Proof.
  apply (proj1 (X8_message_that_is_not_a_dict (R := Sample.runtime)
                  (Text "{list}") (Text "{list}") [] Odd.plain Odd.plain
                  (JList [JInt 1])
                  ltac:(vm_compute; reflexivity)
                  ltac:(vm_compute; reflexivity)
                  ltac:(intros d; discriminate))).
Defined.

Lemma X9_dispatch_routing_witness :
  trace (snd (_receive_task (R := Sample.runtime) [Text "{ack}"] Sample.plain))
  = (trace Sample.plain ++ [Emitted (JInt 11) JNull])%list.
Proof.
  rewrite (proj1 (X9_dispatch_routing (R := Sample.runtime)
                    (Text "{ack}") [] Sample.plain Sample.plain
                    [("t", JNull); ("s", JNull); ("op", JInt 11); ("d", JNull)]
                    (JInt 11) JNull
                    ltac:(vm_compute; reflexivity)
                    ltac:(vm_compute; reflexivity)
                    eq_refl eq_refl) eq_refl).
  vm_compute; reflexivity.
Defined.

Lemma X10_missing_key_ends_the_loop_witness :
  _receive_task (R := Sample.runtime) [Text "{no op}"; Text "{ack}"] Odd.plain
  = (Raise (KeyError "op"), Odd.plain).
Proof.
  apply (proj1 (X10_missing_key_ends_the_loop (R := Sample.runtime)
                  (Text "{no op}") [Text "{ack}"] Odd.plain Odd.plain
                  [("d", JNull)]
                  ltac:(vm_compute; reflexivity)
                  ltac:(vm_compute; reflexivity))).
  reflexivity.
Defined.

Lemma X12_close_without_task_group_witness :
  close (Sample.fresh no_kwargs)
  = (Raise AttributeError,
     with_self (set_running false) (Sample.fresh no_kwargs)).
Proof.
  apply (proj1 (X12_close_without_task_group (Sample.fresh no_kwargs)
                  ltac:(vm_compute; reflexivity))).
Defined.

Lemma X13_send_failures_witness :
  _send (inl 1) JNull (Sample.fresh no_kwargs)
    = (Raise AttributeError, Sample.fresh no_kwargs) /\
  _send (inr "PING") JNull Sample.armed
    = (Raise (KeyError "PING"), Sample.armed).
Proof.
  split.
  - apply (proj1 (proj2 (X13_send_failures (Sample.fresh no_kwargs) JNull)
                    ltac:(vm_compute; reflexivity))).
  - apply (proj1 (X13_send_failures Sample.armed JNull)).
    reflexivity.
Defined.

Lemma X14_ready_session_id_witness :
  _session_id
    (self (snd (emit (JStr "READY") (JDict [("session_id", JStr "abc")])
                  Sample.armed))) = JStr "abc".
Proof.
  apply (proj1 (X14_ready_session_id Sample.armed [("session_id", JStr "abc")])
           (JStr "abc") eq_refl).
Defined.

Lemma X17_heartbeat_carries_the_received_sequence_witness :
  exists w2,
    _heartbeat (snd (_receive (R := Sample.runtime) (Binary Odd.unit5)
                       Sample.armed)) = (Ok tt, w2) /\
    trace w2 = (trace Sample.armed ++
                [Slept (JInt 45000); Sent 0 (command 1 (JInt 5))])%list.
Proof.
  apply (X17_heartbeat_carries_the_received_sequence (R := Sample.runtime)
           (Binary Odd.unit5) Sample.armed _
           [ ("t", JStr "MESSAGE_CREATE"); ("s", JInt 5); ("op", JInt 0);
             ("d", JDict [("content", JStr "hi")]) ]
           5 45000 0%nat);
    try (vm_compute; reflexivity).
  - discriminate.
  - split; [lia | vm_compute; reflexivity].
Defined.

Lemma X20_hello_failures_witness :
  _on_hello JNull Sample.streamed = (Raise TypeError, Sample.streamed) /\
  _on_hello (JDict []) Sample.streamed
    = (Raise (KeyError "heartbeat_interval"), Sample.streamed).
Proof.
  split.
  - apply (proj1 (X20_hello_failures Sample.streamed JNull)).
    intros d; discriminate.
  - apply (proj1 (proj2 (X20_hello_failures Sample.streamed (JDict []))) []);
      reflexivity.
Defined.

Lemma X21_interval_is_not_validated_witness :
  let w1 := snd (_on_hello (JDict [("heartbeat_interval", JStr "soon")])
                   Sample.streamed) in
  _heartbeat_task 1 w1 = (Raise TypeError, w1).
Proof.
  apply (X21_interval_is_not_validated Sample.streamed
           [("heartbeat_interval", JStr "soon")] (JStr "soon") 0%nat 0%nat);
    try (vm_compute; reflexivity).
  right; left. exists "soon". reflexivity.
Defined.

Lemma X22_frames_are_decompressed_together_witness :
  exists w2,
    reassemble (R := Sample.runtime)
      (Binary (Sample.bytes_of "nt 5}" ++ ZLIB_SUFFIX))
      (snd (_receive (R := Sample.runtime) (Binary Sample.chunk1)
              Sample.streamed))
    = (Ok (Text "{event 5}"), w2) /\
    buffer (self w2) = [].
Proof.
  destruct (X22_frames_are_decompressed_together (R := Sample.runtime)
              Sample.streamed Sample.chunk1
              (Sample.bytes_of "nt 5}" ++ ZLIB_SUFFIX)
              (Sample.bytes_of "{event 5}") "{event 5}")
    as (w2 & H & B & _); try (vm_compute; reflexivity).
  exists w2. split; [exact H | exact B].
Defined.

Lemma X25_acknowledged_ticks_send_one_beat_each_witness :
  trace (perform_all (R := Sample.runtime)
           [Ack JNull; Beats 1; Ack JNull; Beats 1] Sample.armed)
  = (trace Sample.armed ++
     [ Slept (JInt 45000); Sent 0 (command 1 JNull);
       Slept (JInt 45000); Sent 0 (command 1 JNull) ])%list.
Proof.
  apply (proj1 (X25_acknowledged_ticks_send_one_beat_each (R := Sample.runtime)
                  2 Sample.armed 0%nat 45000 JNull
                  ltac:(vm_compute; reflexivity)
                  ltac:(vm_compute; reflexivity)
                  ltac:(vm_compute; reflexivity)
                  ltac:(split; [lia | vm_compute; reflexivity]))).
Defined.
